(** * InceptionTimeRegressor: build_model and fit

    A shallow embedding of
    [sktime_dl/deeplearning/inceptiontime/_regressor.py].

    The estimator is a Python object: it lives in an object store and the
    methods receive its address [self].  The callback list handed to the
    constructor is a Python list, shared with the caller, so it lives in a
    store of lists and [build_model] appends to it in place.  Exceptions are
    modelled by a result type; a raise keeps the attribute writes made
    before it.  Everything the class delegates to (Keras, numpy, the input
    checks) is collected in one record, [framework], over which the whole
    development is parametric; every call into it is written into a trace. *)

From Stdlib Require Import ZArith QArith List Bool String Lia.
From stdpp Require Import base option gmap strings list fin_maps.

Local Open Scope Z_scope.
Local Open Scope string_scope.
Local Open Scope list_scope.

(** ** Python values shared by the class and the framework *)

(** Addresses of Python objects. *)
Abbreviation loc := positive.

(** A raised exception: its class name and its message. *)
Inductive exn : Type :=
| Exn (cls : string) (msg : string).

(** The outcome of a call: a value, or a raised exception. *)
Inductive result (A : Type) : Type :=
| Ok (a : A)
| Raise (e : exn).
Arguments Ok {A} a.
Arguments Raise {A} e.

(** [tf.keras.callbacks.Callback] objects.  The class only ever asks whether
    a callback is an instance of [ReduceLROnPlateau], and builds one with
    four keyword arguments. *)
Inductive callback : Type :=
| ReduceLROnPlateau (monitor : string) (factor : Q) (patience : Z) (min_lr : Q)
| OtherCallback (name : string).

(** [isinstance(callback, keras.callbacks.ReduceLROnPlateau)] *)
Definition is_ReduceLROnPlateau (cb : callback) : bool :=
  match cb with
  | ReduceLROnPlateau _ _ _ _ => true
  | OtherCallback _ => false
  end.

(** [keras.optimizers]: the optimizer classes of the framework. *)
Inductive optimizer : Type :=
| SGD | RMSprop | Adagrad | Adadelta | Adam | Adamax | Nadam | Ftrl.

(** The optimizers derived from the Adam update rule. *)
Definition adam_family (o : optimizer) : bool :=
  match o with
  | Adam | Adamax | Nadam => true
  | _ => false
  end.

(** The arguments of [model.compile]. *)
Record compile_args : Type := CompileArgs {
  loss : string;
  compile_optimizer : optimizer;
  metrics : list string
}.

(** A shape is a tuple of integers. *)
Abbreviation shape := (list Z).

(** The fields of [self] that describe the network topology; they are what
    [build_network] reads. *)
Record network_params : Type := NetworkParams {
  np_nb_filters : Z;
  np_use_residual : bool;
  np_use_bottleneck : bool;
  np_bottleneck_size : Z;
  np_depth : Z;
  np_kernel_size : Z
}.

(** ** Python arithmetic used for the default batch size *)

(** [a < b] on rationals, as a boolean. *)
Definition Qltb (a b : Q) : bool := negb (Qle_bool b a).

(** Python's [min(a, b)]: the first argument unless the second is smaller. *)
Definition py_min (a b : Q) : Q := if Qltb b a then b else a.

(** Python's [max(a, b)]: the first argument unless the second is larger. *)
Definition py_max (a b : Q) : Q := if Qltb a b then b else a.

(** Python's [int(x)]: truncation toward zero. *)
Definition py_int (x : Q) : Z := Z.quot (Qnum x) (Z.pos (Qden x)).

(** [int(max(1, min(n / 10, 16)))], with [/] the true division of Python.
    The quotient is taken exactly; the binary64 quotient of an array length
    by ten truncates to the same integer. *)
Definition default_batch_size (n : Z) : Z :=
  py_int (py_max 1 (py_min (inject_Z n / 10) 16)).

(** ** The external framework *)

(** A Keras model: its input and output tensors, the arguments of the last
    [compile] (if any) and its weights. *)
Record keras_model (tensor weights : Type) : Type := KerasModel {
  model_inputs : tensor;
  model_outputs : tensor;
  model_compiled : option compile_args;
  model_weights : weights
}.
Arguments KerasModel {tensor weights}.
Arguments model_inputs {tensor weights}.
Arguments model_outputs {tensor weights}.
Arguments model_compiled {tensor weights}.
Arguments model_weights {tensor weights}.

(** Everything the class calls and does not define.  The types are owned by
    the framework; each operation either returns or raises. *)
Record framework : Type := Framework {
  array_like : Type;   (* what a caller may pass as X or y *)
  ndarray : Type;      (* a numpy array *)
  tensor : Type;       (* a symbolic Keras tensor *)
  weights : Type;      (* the trainable state of a model *)
  History : Type;      (* what [model.fit] returns *)
  (* [X.shape] *)
  ndarray_shape : ndarray -> shape;
  (* the sktime input checks on the pair (X, y) *)
  check_X_y : array_like -> array_like -> result unit;
  (* the conversion of X to the array layout of Keras *)
  to_keras_array : array_like -> result ndarray;
  (* [InceptionTimeNetwork.build_network(self, input_shape)] *)
  build_network : network_params -> shape -> result (tensor * tensor);
  (* [keras.layers.Dense(units=u)(t)] *)
  Dense : Z -> tensor -> result tensor;
  (* [keras.models.Model(inputs=i, outputs=o)]: the initial weights *)
  Model : tensor -> tensor -> result weights;
  (* [model.compile(loss=.., optimizer=.., metrics=..)] accepts or raises *)
  compile : keras_model tensor weights -> compile_args -> result unit;
  (* [model.summary()] *)
  summary : keras_model tensor weights -> result unit;
  (* [model.fit(X, y, batch_size, epochs, verbose, callbacks)]: the trained
     weights and the training history *)
  model_fit : keras_model tensor weights -> ndarray -> array_like ->
              option Z -> Z -> bool -> option (list callback) ->
              result (weights * History);
  (* the weights the model is left with when that call raises: training
     updates the model in place, so they need not be the initial ones *)
  model_fit_interrupted :
    keras_model tensor weights -> ndarray -> array_like ->
    option Z -> Z -> bool -> option (list callback) -> weights;
  (* [model.save] of a model under a directory and a file name, in hdf5 *)
  model_save : keras_model tensor weights -> string -> string -> result unit
}.

(** The calls that leave the class. *)
Inductive site : Type :=
| call_check_and_clean_data
| call_build_network
| call_Dense
| call_Model
| call_compile
| call_summary
| call_model_fit
| call_save_trained_model.

(** How a call ended. *)
Inductive outcome : Type :=
| Returned
| Raised (e : exn).

(** The one call that validates the input; all others delegate work to the
    framework. *)
Definition is_validation (s : site) : bool :=
  match s with
  | call_check_and_clean_data => true
  | _ => false
  end.

Definition is_framework_call (s : site) : bool := negb (is_validation s).

(** The calls of a run of [build_model], in order. *)
Definition build_model_calls : list site :=
  [call_build_network; call_Dense; call_Model; call_compile].

(** The calls of a run of [fit], in order; [model.summary] only when
    [verbose] holds. *)
Definition fit_calls (v : bool) : list site :=
  [call_check_and_clean_data; call_build_network; call_Dense; call_Model;
   call_compile] ++ (if v then [call_summary] else []) ++
  [call_model_fit; call_save_trained_model].

(** A call that returned. *)
Definition returned (s : site) : site * outcome := (s, Returned).

(** The trace of a run through a list of calls that stops at the first call
    that raises: the calls before it returned, and nothing is called after
    it. *)
Inductive stops_at (ex : exn) : list site -> list (site * outcome) -> Prop :=
| stops_here (s : site) (rest : list site) :
    stops_at ex (s :: rest) [(s, Raised ex)]
| stops_later (s : site) (calls : list site) (t : list (site * outcome)) :
    stops_at ex calls t -> stops_at ex (s :: calls) (returned s :: t).

(** ** A state and exception monad

    A computation reads and writes a state of type [W] and returns or
    raises.  A raise stops the computation and keeps the state reached. *)

Definition M (W A : Type) : Type := W -> result A * W.

Definition ret {W A : Type} (a : A) : M W A := fun w => (Ok a, w).

Definition raise {W A : Type} (e : exn) : M W A := fun w => (Raise e, w).

Definition bind {W A B : Type} (m : M W A) (k : A -> M W B) : M W B :=
  fun w =>
    match m w with
    | (Ok a, w') => k a w'
    | (Raise e, w') => (Raise e, w')
    end.

Notation "'let*' x ':=' m 'in' k" := (bind m (fun x => k))
  (at level 10, x pattern, m at level 100, k at level 200).

(** ** The estimator and the world it lives in *)

Section Regressor.

Variable fw : framework.

Abbreviation kmodel := (keras_model (tensor fw) (weights fw)).

(** The attributes of an [InceptionTimeRegressor].  [input_shape], [model]
    and [history] do not exist before the first [fit]. *)
Record estimator : Type := Estimator {
  nb_filters : Z;
  use_residual : bool;
  use_bottleneck : bool;
  bottleneck_size : Z;
  depth : Z;
  kernel_size : Z;
  batch_size : option Z;
  nb_epochs : Z;
  callbacks : option loc;
  random_seed : Z;
  verbose : bool;
  model_name : string;
  model_save_directory : option string;
  is_fitted : bool;
  input_shape : option shape;
  model : option kmodel;
  history : option (History fw)
}.

(** Attribute assignments [self.a = v]. *)
Definition set_batch_size (v : option Z) (e : estimator) : estimator :=
  Estimator (nb_filters e) (use_residual e) (use_bottleneck e)
    (bottleneck_size e) (depth e) (kernel_size e) v (nb_epochs e)
    (callbacks e) (random_seed e) (verbose e) (model_name e)
    (model_save_directory e) (is_fitted e) (input_shape e) (model e)
    (history e).

Definition set_callbacks (v : option loc) (e : estimator) : estimator :=
  Estimator (nb_filters e) (use_residual e) (use_bottleneck e)
    (bottleneck_size e) (depth e) (kernel_size e) (batch_size e) (nb_epochs e)
    v (random_seed e) (verbose e) (model_name e)
    (model_save_directory e) (is_fitted e) (input_shape e) (model e)
    (history e).

Definition set_is_fitted (v : bool) (e : estimator) : estimator :=
  Estimator (nb_filters e) (use_residual e) (use_bottleneck e)
    (bottleneck_size e) (depth e) (kernel_size e) (batch_size e) (nb_epochs e)
    (callbacks e) (random_seed e) (verbose e) (model_name e)
    (model_save_directory e) v (input_shape e) (model e)
    (history e).

Definition set_input_shape (v : option shape) (e : estimator) : estimator :=
  Estimator (nb_filters e) (use_residual e) (use_bottleneck e)
    (bottleneck_size e) (depth e) (kernel_size e) (batch_size e) (nb_epochs e)
    (callbacks e) (random_seed e) (verbose e) (model_name e)
    (model_save_directory e) (is_fitted e) v (model e)
    (history e).

Definition set_model (v : option kmodel) (e : estimator) : estimator :=
  Estimator (nb_filters e) (use_residual e) (use_bottleneck e)
    (bottleneck_size e) (depth e) (kernel_size e) (batch_size e) (nb_epochs e)
    (callbacks e) (random_seed e) (verbose e) (model_name e)
    (model_save_directory e) (is_fitted e) (input_shape e) v
    (history e).

Definition set_history (v : option (History fw)) (e : estimator) : estimator :=
  Estimator (nb_filters e) (use_residual e) (use_bottleneck e)
    (bottleneck_size e) (depth e) (kernel_size e) (batch_size e) (nb_epochs e)
    (callbacks e) (random_seed e) (verbose e) (model_name e)
    (model_save_directory e) (is_fitted e) (input_shape e) (model e)
    v.

(** The topology fields of [self], as [build_network] reads them. *)
Definition params_of (e : estimator) : network_params :=
  NetworkParams (nb_filters e) (use_residual e) (use_bottleneck e)
    (bottleneck_size e) (depth e) (kernel_size e).

(** A file written by [model.save]. *)
Record saved_file : Type := SavedFile {
  saved_directory : string;
  saved_name : string;
  saved_format : string;
  saved_model : kmodel
}.

(** The state a method runs in: the estimators, the callback lists, the
    files written so far, and the calls made so far with their outcomes. *)
Record world : Type := World {
  objs : gmap positive estimator;
  lists : gmap positive (list callback);
  disk : list saved_file;
  trace : list (site * outcome)
}.

(** *** Primitive steps *)

Definition with_objs (o : gmap positive estimator) (w : world) : world :=
  World o (lists w) (disk w) (trace w).

Definition with_lists (l : gmap positive (list callback)) (w : world) : world :=
  World (objs w) l (disk w) (trace w).

Definition with_disk (d : list saved_file) (w : world) : world :=
  World (objs w) (lists w) d (trace w).

Definition with_trace (t : list (site * outcome)) (w : world) : world :=
  World (objs w) (lists w) (disk w) t.

(** Reading an attribute of [self] needs the object [self] refers to. *)
Definition get_self (self : loc) : M world estimator :=
  fun w =>
    match objs w !! self with
    | Some e => (Ok e, w)
    | None => (Raise (Exn "ReferenceError" "no such estimator"), w)
    end.

(** [self.a = v], with [f] the assignment. *)
Definition set_attr (self : loc) (f : estimator -> estimator) : M world unit :=
  fun w =>
    match objs w !! self with
    | Some e => (Ok tt, with_objs (<[self := f e]> (objs w)) w)
    | None => (Raise (Exn "ReferenceError" "no such estimator"), w)
    end.

Definition outcome_of {A : Type} (r : result A) : outcome :=
  match r with
  | Ok _ => Returned
  | Raise e => Raised e
  end.

(** A call that leaves the class: the framework decides its result [r], and
    the call is written into the trace with its outcome. *)
Definition call {A : Type} (s : site) (r : result A) : M world A :=
  fun w => (r, with_trace (trace w ++ [(s, outcome_of r)]) w).

(** A list display [[...]] creates a new list object. *)
Definition new_list (l : list callback) : M world loc :=
  fun w =>
    let a := fresh (dom (lists w)) in
    (Ok a, with_lists (<[a := l]> (lists w)) w).

(** The elements of the list at [a]. *)
Definition read_list (a : loc) : M world (list callback) :=
  fun w =>
    match lists w !! a with
    | Some l => (Ok l, w)
    | None => (Raise (Exn "TypeError" "callbacks is not a list"), w)
    end.

(** [lst.append(cb)], in place. *)
Definition list_append (a : loc) (cb : callback) : M world unit :=
  fun w =>
    match lists w !! a with
    | Some l => (Ok tt, with_lists (<[a := l ++ [cb]]> (lists w)) w)
    | None => (Raise (Exn "AttributeError" "callbacks has no append"), w)
    end.

Definition write_file (f : saved_file) : M world unit :=
  fun w => (Ok tt, with_disk (disk w ++ [f]) w).

(** [a[0]] on a tuple. *)
Definition index0 (s : shape) : M world Z :=
  match s with
  | n :: _ => ret n
  | [] => raise (Exn "IndexError" "tuple index out of range")
  end.

(** *** The constructor *)

(** The keyword arguments of [__init__]. *)
Record init_kwargs : Type := InitKwargs {
  kw_nb_filters : Z;
  kw_use_residual : bool;
  kw_use_bottleneck : bool;
  kw_bottleneck_size : Z;
  kw_depth : Z;
  kw_kernel_size : Z;
  kw_batch_size : option Z;
  kw_nb_epochs : Z;
  kw_callbacks : option loc;
  kw_random_seed : Z;
  kw_verbose : bool;
  kw_model_name : string;
  kw_model_save_directory : option string
}.

(** The defaults of the signature of [__init__]. *)
Definition default_kwargs : init_kwargs :=
  InitKwargs 32 true true 32 6 (41 - 1) (Some 64) 1500 None 0 false
    "inception_regressor" None.

(** A call of the class: a new object, initialised by [__init__] from the
    keyword arguments. *)
Definition InceptionTimeRegressor_init (kw : init_kwargs) : M world loc :=
  fun w =>
    let self := fresh (dom (objs w)) in
    let e :=
      {| nb_filters := kw_nb_filters kw;
         use_residual := kw_use_residual kw;
         use_bottleneck := kw_use_bottleneck kw;
         bottleneck_size := kw_bottleneck_size kw;
         depth := kw_depth kw;
         kernel_size := kw_kernel_size kw;
         batch_size := kw_batch_size kw;
         nb_epochs := kw_nb_epochs kw;
         callbacks := kw_callbacks kw;
         random_seed := kw_random_seed kw;
         verbose := kw_verbose kw;
         model_name := kw_model_name kw;
         model_save_directory := kw_model_save_directory kw;
         is_fitted := false;
         input_shape := None;
         model := None;
         history := None |} in
    (Ok self, with_objs (<[self := e]> (objs w)) w).

(** *** build_model *)

(** [keras.callbacks.ReduceLROnPlateau(monitor="loss", factor=0.5,
    patience=50, min_lr=0.0001)] *)
Definition default_reduce_lr : callback :=
  ReduceLROnPlateau "loss" 0.5%Q 50 0.0001%Q.

(** The arguments [build_model] compiles with. *)
Definition build_model_compile_args : compile_args :=
  CompileArgs "mean_squared_error" Adam ["mean_squared_error"].

Definition build_model (self : loc) (input_shape : shape) : M world kmodel :=
  let* e := get_self self in
  let* layers :=
    call call_build_network (build_network fw (params_of e) input_shape) in
  let input_layer := fst layers in
  let output_layer := snd layers in
  let* output_layer := call call_Dense (Dense fw 1 output_layer) in
  let* w0 := call call_Model (Model fw input_layer output_layer) in
  let model := KerasModel input_layer output_layer None w0 in
  let* _ := call call_compile (compile fw model build_model_compile_args) in
  let model :=
    KerasModel input_layer output_layer (Some build_model_compile_args) w0 in
  let* e := get_self self in
  let* _ :=
    match callbacks e with
    | None => let* l := new_list [] in set_attr self (set_callbacks (Some l))
    | Some _ => ret tt
    end in
  let* e := get_self self in
  match callbacks e with
  | None => raise (Exn "TypeError" "callbacks is not iterable")
  | Some l =>
      let* cbs := read_list l in
      let* _ :=
        if negb (existsb is_ReduceLROnPlateau cbs)
        then list_append l default_reduce_lr
        else ret tt in
      ret model
  end.

(** *** Helpers of the repository that fit calls *)

(** Modelled from the spec: [check_and_clean_data] is defined in
    [sktime_dl.utils], which is not among the sources.  The spec gives the
    contract of [fit] as "accept array-like X, y; ...; raises on malformed
    input", and the docstring of [fit] describes [input_checks] as "whether
    to check the X and y parameters": when [input_checks] holds the pair
    (X, y) is checked first, and a rejected pair raises; then X is converted
    to the array that is returned.  What the checks reject and how X is
    converted is left to the framework record. *)
Definition check_and_clean_data (X y : array_like fw) (input_checks : bool)
  : result (ndarray fw) :=
  match (if input_checks then check_X_y fw X y else Ok tt) with
  | Ok _ => to_keras_array fw X
  | Raise e => Raise e
  end.

(** [self.model], an attribute that exists only once it was assigned. *)
Definition get_model (self : loc) : M world kmodel :=
  let* e := get_self self in
  match model e with
  | Some m => ret m
  | None => raise (Exn "AttributeError" "no attribute model")
  end.

(** [self.input_shape] *)
Definition get_input_shape (self : loc) : M world shape :=
  let* e := get_self self in
  match input_shape e with
  | Some s => ret s
  | None => raise (Exn "AttributeError" "no attribute input_shape")
  end.

(** Modelled from the spec: [save_trained_model] is inherited from
    [BaseDeepRegressor], which is not among the sources.  The spec describes
    persistence as "save trained model to a directory path in a
    framework-native serialized format", and the docstring of [__init__]
    describes [model_save_directory] as "if not None; location to save the
    trained keras model in hdf5 format" and [model_name] as "the name of
    this model for printing and file writing purposes": when the directory
    is not None, [self.model] is saved under it, under the model's name, in
    hdf5; when it is None nothing is written. *)
Definition save_trained_model (self : loc) : M world unit :=
  let* e := get_self self in
  match model_save_directory e with
  | None => call call_save_trained_model (Ok tt)
  | Some dir =>
      let* m := get_model self in
      let* _ :=
        call call_save_trained_model (model_save fw m dir (model_name e)) in
      write_file (SavedFile dir (model_name e) "hdf5" m)
  end.

(** *** fit *)

(** The weights a model holds after a call of [model.fit] on it, whether
    the call returned or raised. *)
Definition weights_after_fit (m : kmodel) (X : ndarray fw) (y : array_like fw)
    (b : option Z) (ep : Z) (v : bool) (cbs : option (list callback))
  : weights fw :=
  match model_fit fw m X y b ep v cbs with
  | Ok trained => fst trained
  | Raise _ => model_fit_interrupted fw m X y b ep v cbs
  end.

Definition fit (self : loc) (X y : array_like fw) (input_checks : bool)
  : M world loc :=
  let* X :=
    call call_check_and_clean_data (check_and_clean_data X y input_checks) in
  let* _ := set_attr self (set_input_shape (Some (tail (ndarray_shape fw X)))) in
  let* e := get_self self in
  let* _ :=
    match batch_size e with
    | None =>
        let* n := index0 (ndarray_shape fw X) in
        set_attr self (set_batch_size (Some (default_batch_size n)))
    | Some b => set_attr self (set_batch_size (Some b))
    end in
  let* s := get_input_shape self in
  let* built := build_model self s in
  let* _ := set_attr self (set_model (Some built)) in
  let* e := get_self self in
  let* _ :=
    if verbose e
    then let* m := get_model self in call call_summary (summary fw m)
    else ret tt in
  let* m := get_model self in
  let* e := get_self self in
  let* cbs :=
    match callbacks e with
    | None => ret None
    | Some l => let* c := read_list l in ret (Some c)
    end in
  (* Keras trains the model object in place, and [self.model] is that
     object: it holds the weights the call leaves, also when the call
     raises *)
  let* _ :=
    set_attr self
      (set_model
         (Some (KerasModel (model_inputs m) (model_outputs m)
                  (model_compiled m)
                  (weights_after_fit m X y (batch_size e) (nb_epochs e)
                     (verbose e) cbs)))) in
  let* trained :=
    call call_model_fit
      (model_fit fw m X y (batch_size e) (nb_epochs e) (verbose e) cbs) in
  let* _ := set_attr self (set_history (Some (snd trained))) in
  let* _ := save_trained_model self in
  let* _ := set_attr self (set_is_fitted true) in
  ret self.

(** ** Observations and runs *)

(** The elements of [self.callbacks]; [None] and a missing list have none. *)
Definition callbacks_of (self : loc) (w : world) : list callback :=
  match objs w !! self with
  | Some e =>
      match callbacks e with
      | Some l => default [] (lists w !! l)
      | None => []
      end
  | None => []
  end.

(** [build_model] called once for each shape of a list, one call after the
    other, whatever each call does. *)
Fixpoint build_model_times (self : loc) (shapes : list shape) (w : world)
  : world :=
  match shapes with
  | [] => w
  | s :: rest => build_model_times self rest (snd (build_model self s w))
  end.

(** The operations of the class. *)
Inductive operation : Type :=
| op_init (kw : init_kwargs)
| op_build_model (self : loc) (input_shape : shape)
| op_fit (self : loc) (X y : array_like fw) (input_checks : bool).

(** The world an operation leaves, whether it returns or raises. *)
Definition run (o : operation) (w : world) : world :=
  match o with
  | op_init kw => snd (InceptionTimeRegressor_init kw w)
  | op_build_model self s => snd (build_model self s w)
  | op_fit self X y input_checks => snd (fit self X y input_checks w)
  end.

(** The worlds that operations of the class lead to, from a world in which
    no estimator exists yet. *)
Inductive reachable : world -> Prop :=
| reachable_start (w : world) : objs w = ∅ -> reachable w
| reachable_run (o : operation) (w : world) :
    reachable w -> reachable (run o w).

(** An estimator that is fitted has a model and an input shape. *)
Definition fitted_invariant (w : world) : Prop :=
  forall (a : loc) (e : estimator),
    objs w !! a = Some e -> is_fitted e = true ->
    is_Some (model e) /\ is_Some (input_shape e).

(** The batch size [fit] trains with. *)
Definition batch_size_used (e : estimator) (X' : ndarray fw) : Z :=
  match batch_size e with
  | Some b => b
  | None => default_batch_size (hd 0 (ndarray_shape fw X'))
  end.

(** The files a [fit] that returns has written. *)
Definition files_saved (e : estimator) (m : kmodel) : list saved_file :=
  match model_save_directory e with
  | Some dir => [SavedFile dir (model_name e) "hdf5" m]
  | None => []
  end.

(** Whether an operation is a call of [fit]. *)
Definition is_fit_op (o : operation) : bool :=
  match o with
  | op_fit _ _ _ _ => true
  | _ => false
  end.

(** A sequence of operations, one after the other. *)
Definition run_all (ops : list operation) (w : world) : world :=
  fold_left (fun w o => run o w) ops w.

(** Every error [fit] raises is the error of a call into the framework:
    the last call of the trace raised it, and that call is not the
    validation of the input. *)
Definition raises_only_framework_errors : Prop :=
  forall (self : loc) (X y : array_like fw) (input_checks : bool)
         (w : world) (ex : exn) (w' : world),
    fit self X y input_checks w = (Raise ex, w') ->
    exists s, last (trace w') = Some (s, Raised ex) /\
              is_framework_call s = true.

(** The constructor arguments that no method assigns again: everything
    but [batch_size] and [callbacks]. *)
Definition hyperparameters (e : estimator)
  : network_params * Z * Z * bool * string * option string :=
  (params_of e, nb_epochs e, random_seed e, verbose e, model_name e,
   model_save_directory e).

End Regressor.

Arguments estimator : clear implicits.
Arguments world : clear implicits.
Arguments nb_filters {fw} e.
Arguments use_residual {fw} e.
Arguments use_bottleneck {fw} e.
Arguments bottleneck_size {fw} e.
Arguments depth {fw} e.
Arguments kernel_size {fw} e.
Arguments batch_size {fw} e.
Arguments nb_epochs {fw} e.
Arguments callbacks {fw} e.
Arguments random_seed {fw} e.
Arguments verbose {fw} e.
Arguments model_name {fw} e.
Arguments model_save_directory {fw} e.
Arguments is_fitted {fw} e.
Arguments input_shape {fw} e.
Arguments model {fw} e.
Arguments history {fw} e.
Arguments objs {fw} w.
Arguments lists {fw} w.
Arguments disk {fw} w.
Arguments trace {fw} w.
Arguments saved_directory {fw} s.
Arguments saved_name {fw} s.
Arguments saved_format {fw} s.
Arguments saved_model {fw} s.
Arguments callbacks_of {fw} self w.
Arguments fitted_invariant {fw} w.
Arguments reachable {fw} w.
Arguments run {fw} o w.
Arguments batch_size_used {fw} e X'.
Arguments files_saved {fw} e m.
Arguments is_fit_op {fw} o.
Arguments run_all {fw} ops w.
Arguments hyperparameters {fw} e.

(** ** A small framework to run the model on

    Arrays are represented by their shapes and tensors by numbers; the input
    checks reject a pair (X, y) whose instance counts differ, as the sktime
    checks do; training records the number of epochs as the weights. *)

Definition sample_check_X_y (X y : shape) : result unit :=
  if decide (head X = head y) then Ok tt
  else Raise (Exn "ValueError" "inconsistent numbers of samples").

Definition sample_framework : framework :=
  {| array_like := shape;
     ndarray := shape;
     tensor := Z;
     weights := Z;
     History := list Z;
     ndarray_shape := fun a => a;
     check_X_y := sample_check_X_y;
     to_keras_array := fun X => Ok X;
     build_network := fun p s => Ok (0, np_depth p);
     Dense := fun u t => Ok (t + u);
     Model := fun i o => Ok 0;
     compile := fun m a => Ok tt;
     summary := fun m => Ok tt;
     model_fit := fun m X y b ep v cbs => Ok (ep, [ep]);
     model_fit_interrupted := fun m X y b ep v cbs => model_weights m;
     model_save := fun m d n => Ok tt |}.

(** The caller's list of callbacks, before any estimator exists. *)
Definition caller_list : loc := 7%positive.

Definition caller_world : world sample_framework :=
  World _ ∅ {[ caller_list := [OtherCallback "EarlyStopping"] ]} [] [].

(** The arguments of the sample estimator: the caller's callbacks, no batch
    size, verbose, and a directory to save to. *)
Definition sample_kwargs : init_kwargs :=
  InitKwargs 32 true true 32 6 (41 - 1) None 1500 (Some caller_list) 0 true
    "inception_regressor" (Some "models").

(** The world after the sample estimator was constructed. *)
Definition sample_world : world sample_framework :=
  run (op_init sample_framework sample_kwargs) caller_world.

(** The sample estimator. *)
Definition sample_self : loc := 1%positive.

(** Twenty series of five time steps and one channel, with their labels. *)
Definition sample_X : shape := [20; 5; 1].
Definition sample_y : shape := [20].

(** Labels for nineteen series only. *)
Definition short_y : shape := [19].

(** A framework that fails as Keras does: a network cannot be built on an
    input without a time axis, and training stops on an X and y of
    different lengths. *)
Definition strict_framework : framework :=
  {| array_like := shape;
     ndarray := shape;
     tensor := Z;
     weights := Z;
     History := list Z;
     ndarray_shape := fun a => a;
     check_X_y := sample_check_X_y;
     to_keras_array := fun X => Ok X;
     build_network := fun p s =>
       match s with
       | [] => Raise (Exn "ValueError" "input has no time axis")
       | _ => Ok (0, np_depth p)
       end;
     Dense := fun u t => Ok (t + u);
     Model := fun i o => Ok 0;
     compile := fun m a => Ok tt;
     summary := fun m => Ok tt;
     model_fit := fun m X y b ep v cbs =>
       if decide (head X = head y) then Ok (ep, [ep])
       else Raise (Exn "ValueError" "data cardinality is ambiguous");
     model_fit_interrupted := fun m X y b ep v cbs => model_weights m;
     model_save := fun m d n => Ok tt |}.

(** Two estimators constructed with the caller's list, in the strict
    framework. *)
Definition strict_world : world strict_framework :=
  run_all [op_init strict_framework sample_kwargs;
           op_init strict_framework sample_kwargs]
    (World _ ∅ {[ caller_list := [OtherCallback "EarlyStopping"] ]} [] []).

(** Two estimators constructed with the default arguments. *)
Definition default_world : world sample_framework :=
  run_all [op_init sample_framework default_kwargs;
           op_init sample_framework default_kwargs]
    (World _ ∅ ∅ [] []).

(** The second estimator of a world. *)
Definition other_self : loc := 2%positive.

(** ** Proof tools

    The methods are run symbolically: the monad is unfolded, and the run is
    followed through the hypothesis that states its result, one case split
    for each call whose result the framework decides. *)

Ltac unfold_monad :=
  unfold weights_after_fit, get_model, get_input_shape, index0, bind, ret,
    raise, call,
    get_self, set_attr, new_list, read_list, list_append, write_file,
    with_objs, with_lists, with_disk, with_trace in *.

(** Projections of records and of attribute assignments. *)
Ltac simp_goal :=
  cbn [objs lists disk trace fst snd callbacks batch_size is_fitted
       input_shape model history nb_filters use_residual use_bottleneck
       bottleneck_size depth kernel_size nb_epochs random_seed verbose
       model_name model_save_directory set_callbacks set_batch_size
       set_is_fitted set_input_shape set_model set_history params_of
       outcome_of model_inputs model_outputs model_compiled model_weights].

Ltac simp_hyp H :=
  cbn [objs lists disk trace fst snd callbacks batch_size is_fitted
       input_shape model history nb_filters use_residual use_bottleneck
       bottleneck_size depth kernel_size nb_epochs random_seed verbose
       model_name model_save_directory set_callbacks set_batch_size
       set_is_fitted set_input_shape set_model set_history params_of
       outcome_of model_inputs model_outputs model_compiled model_weights]
    in H.

Ltac simp_world :=
  cbn [objs lists disk trace fst snd callbacks batch_size is_fitted
       input_shape model history nb_filters use_residual use_bottleneck
       bottleneck_size depth kernel_size nb_epochs random_seed verbose
       model_name model_save_directory set_callbacks set_batch_size
       set_is_fitted set_input_shape set_model set_history params_of
       outcome_of model_inputs model_outputs model_compiled model_weights]
    in *.

(** One step of the run stated by [H]: a lookup just written, a
    simplification, an impossible result, or a case split on the next thing
    the run depends on. *)
Ltac step_in H :=
  first
    [ rewrite lookup_insert_eq in H
    | progress simp_hyp H
    | discriminate H
    | match type of H with
      | context [match ?x with _ => _ end] =>
          lazymatch x with
          | context [match _ with _ => _ end] => fail
          | _ =>
              first
                [ match goal with E : x = _ |- _ => rewrite E in H end
                | destruct x eqn:? ]
          end
      end ].

Ltac run_in H := repeat step_in H; try (injection H as <- <-); simp_goal.

(** The goal, rewritten with what the case splits found. *)
Ltac use_eqs :=
  repeat first
    [ rewrite lookup_insert_eq
    | progress simp_world
    | match goal with E : ?x = _ |- context [?x] => rewrite E end ].

Ltac use_shape :=
  repeat match goal with
         | E : ndarray_shape _ _ = _ |- _ => rewrite E in *; clear E
         end; cbn [tail hd] in *.

(** A run in the goal, replayed with the results found for another run. *)
Ltac eval_goal :=
  repeat first
    [ rewrite lookup_insert_eq
    | progress simp_goal
    | match goal with
      | E : ?x = _ |- context [match ?x with _ => _ end] => rewrite E
      end ].

Ltac unfold_setters :=
  unfold set_callbacks, set_batch_size, set_is_fitted, set_input_shape,
    set_model, set_history, params_of in *.

(** ** The default batch size *)

Lemma default_batch_size_value (n : Z) :
  default_batch_size n = Z.max 1 (Z.min (n / 10) 16).
Proof.
  unfold default_batch_size, py_int, py_max, py_min, Qltb, Qle_bool.
  cbn [inject_Z Qdiv Qmult Qinv Qnum Qden Pos.mul].
  repeat match goal with
         | |- context [Z.leb ?a ?b] => destruct (Z.leb_spec a b)
         end; cbn [negb Qnum Qden] in *; cbn in *.
  all: change (Z.pos (1 * 10)) with 10 in *;
    change (Z.quot 1 1) with 1; change (Z.quot 16 1) with 16;
    rewrite ?Z.mul_1_r in *.
  all: rewrite ?Z.quot_div_nonneg by lia.
  all: pose proof (Z.div_mod n 10 ltac:(lia));
    pose proof (Z.mod_pos_bound n 10 ltac:(lia)); lia.
Qed.

Lemma default_batch_size_bounds (n : Z) : 1 <= default_batch_size n <= 16.
Proof. rewrite default_batch_size_value. lia. Qed.

(** X11: the default batch size grows with the number of instances and,
    for data with at least one instance, never exceeds it. *)
Theorem default_batch_size_monotone_and_at_most_n (n m : Z) :
  1 <= n -> n <= m ->
  default_batch_size n <= default_batch_size m /\ default_batch_size n <= n.
Proof.
  intros Hn Hm. rewrite !default_batch_size_value.
  pose proof (Z.div_le_mono n m 10 ltac:(lia) Hm).
  pose proof (Z.div_mod n 10 ltac:(lia)).
  pose proof (Z.mod_pos_bound n 10 ltac:(lia)).
  lia.
Qed.

(** ** Properties of build_model and fit *)

Section Properties.

Variable fw : framework.
Implicit Types (w : world fw) (e : estimator fw) (self : loc).

Lemma existsb_filter_nil {A : Type} (p : A -> bool) (l : list A) :
  existsb p l = false -> List.filter p l = [].
Proof.
  induction l as [|x l IH]; cbn; [done|].
  destruct (p x); cbn; [discriminate | exact IH].
Qed.

Lemma build_model_callbacks_step self s w r w' :
  build_model fw self s w = (r, w') ->
  callbacks_of self w' = callbacks_of self w \/
  (existsb is_ReduceLROnPlateau (callbacks_of self w) = false /\
   callbacks_of self w' = callbacks_of self w ++ [default_reduce_lr]).
Proof.
  intros H. unfold build_model in H. unfold_monad.
  run_in H; unfold callbacks_of; use_eqs; cbn [default]; auto.
  - right. split; [|done]. by destruct (existsb _ _).
Qed.

Lemma build_model_ok_has_ReduceLROnPlateau self s w m w' :
  build_model fw self s w = (Ok m, w') ->
  existsb is_ReduceLROnPlateau (callbacks_of self w') = true.
Proof.
  intros H. unfold build_model in H. unfold_monad.
  run_in H; unfold callbacks_of; use_eqs; cbn [default from_option id] in *;
    try discriminate.
  - rewrite existsb_app. cbn. apply orb_true_r.
  - by destruct (existsb _ _).
  - reflexivity.
Qed.

(** The list object the caller supplied is the one [build_model] leaves in
    [self.callbacks]. *)
Lemma build_model_keeps_list_object self s w m w' e l :
  build_model fw self s w = (Ok m, w') ->
  objs w !! self = Some e -> callbacks e = Some l ->
  exists e', objs w' !! self = Some e' /\ callbacks e' = Some l /\
             lists w' !! l = Some (callbacks_of self w').
Proof.
  intros H He Hl. unfold build_model in H. unfold_monad.
  run_in H; try congruence.
  all: exists e; unfold callbacks_of; use_eqs; cbn [default from_option id];
    repeat split; congruence.
Qed.

(** C1: when [build_model] returns and [self.callbacks] (None counting as
    empty) held no [ReduceLROnPlateau], the list now ends with the default
    one -- monitor "loss", factor 0.5, patience 50, min_lr 0.0001 -- and
    holds no other [ReduceLROnPlateau]; when the caller supplied one, the
    list is unchanged.  A list supplied by the caller is extended in
    place: [self.callbacks] still refers to the same list object. *)
Theorem build_model_appends_default_ReduceLROnPlateau self s w m w' :
  build_model fw self s w = (Ok m, w') ->
  (existsb is_ReduceLROnPlateau (callbacks_of self w) = false ->
   callbacks_of self w' =
     callbacks_of self w ++ [ReduceLROnPlateau "loss" 0.5%Q 50 0.0001%Q] /\
   List.filter is_ReduceLROnPlateau (callbacks_of self w') =
     [ReduceLROnPlateau "loss" 0.5%Q 50 0.0001%Q]) /\
  (existsb is_ReduceLROnPlateau (callbacks_of self w) = true ->
   callbacks_of self w' = callbacks_of self w) /\
  (forall e l, objs w !! self = Some e -> callbacks e = Some l ->
     exists e', objs w' !! self = Some e' /\ callbacks e' = Some l /\
                lists w' !! l = Some (callbacks_of self w')).
Proof.
  intros H.
  pose proof (build_model_callbacks_step _ _ _ _ _ H) as Hstep.
  pose proof (build_model_ok_has_ReduceLROnPlateau _ _ _ _ _ H) as Hhas.
  split; [|split].
  - intros Hno. destruct Hstep as [Heq | [_ Heq]].
    + rewrite Heq in Hhas. congruence.
    + split; [exact Heq|]. rewrite Heq, List.filter_app.
      rewrite (existsb_filter_nil _ _ Hno). reflexivity.
  - intros Hyes. destruct Hstep as [Heq | [Hno _]]; [exact Heq | congruence].
  - intros e l He Hl. exact (build_model_keeps_list_object _ _ _ _ _ _ _ H He Hl).
Qed.

(** C4: for every input shape, the model [build_model] returns was
    compiled with the loss "mean_squared_error" and the optimizer Adam. *)
Theorem build_model_compiles_mse_adam self s w m w' :
  build_model fw self s w = (Ok m, w') ->
  exists args,
    model_compiled m = Some args /\
    loss args = "mean_squared_error" /\
    compile_optimizer args = Adam /\
    adam_family (compile_optimizer args) = true /\
    compile fw (KerasModel (model_inputs m) (model_outputs m) None
                  (model_weights m)) args = Ok tt /\
    exists t, trace w' = trace w ++ t /\ In (call_compile, Returned) t.
Proof.
  intros H. unfold build_model in H. unfold_monad.
  run_in H.
  all: exists build_model_compile_args; repeat split; try reflexivity.
  all: try match goal with E : compile _ _ _ = Ok ?u |- _ =>
             destruct u; exact E end.
  all: eexists; split;
    [rewrite <- !app_assoc; reflexivity | cbn; auto 10].
Qed.

Lemma build_model_times_step self s shapes w :
  build_model_times fw self (s :: shapes) w =
  build_model_times fw self shapes (snd (build_model fw self s w)).
Proof. reflexivity. Qed.

Lemma build_model_times_unchanged self shapes w :
  existsb is_ReduceLROnPlateau (callbacks_of self w) = true ->
  callbacks_of self (build_model_times fw self shapes w) = callbacks_of self w.
Proof.
  revert w. induction shapes as [|s shapes IH]; intros w Hhas; [done|].
  rewrite build_model_times_step.
  destruct (build_model fw self s w) as [r w1] eqn:Hb. cbn [snd].
  destruct (build_model_callbacks_step _ _ _ _ _ Hb) as [Heq | [Hno _]];
    [|congruence].
  rewrite IH; [exact Heq | by rewrite Heq].
Qed.

(** C9: however many times [build_model] is called, one call after the
    other, [self.callbacks] ends up as it was, or with one default
    [ReduceLROnPlateau] appended: never with two. *)
Theorem build_model_times_appends_at_most_once self shapes w :
  exists extra,
    callbacks_of self (build_model_times fw self shapes w) =
      callbacks_of self w ++ extra /\
    (extra = [] \/
     (extra = [default_reduce_lr] /\
      existsb is_ReduceLROnPlateau (callbacks_of self w) = false)).
Proof.
  revert w. induction shapes as [|s shapes IH]; intros w.
  - exists []. rewrite app_nil_r. auto.
  - rewrite build_model_times_step.
    destruct (build_model fw self s w) as [r w1] eqn:Hb. cbn [snd].
    destruct (build_model_callbacks_step _ _ _ _ _ Hb) as [Heq | [Hno Heq]].
    + destruct (IH w1) as (extra & Hx & Hcases). exists extra.
      rewrite Hx, Heq. split; [done|]. by rewrite <- Heq.
    + exists [default_reduce_lr]. split; [|by right].
      rewrite build_model_times_unchanged; [exact Heq|].
      rewrite Heq, existsb_app. cbn. apply orb_true_r.
Qed.


Lemma set_callbacks_same e : set_callbacks fw (callbacks e) e = e.
Proof. by destruct e. Qed.

(** What a call of [build_model] that returns has done. *)
Lemma build_model_ok_inv self s w m w' :
  build_model fw self s w = (Ok m, w') ->
  exists e l cbs layers out init,
    objs w !! self = Some e /\
    build_network fw (params_of fw e) s = Ok layers /\
    Dense fw 1 (snd layers) = Ok out /\
    Model fw (fst layers) out = Ok init /\
    m = KerasModel (fst layers) out (Some build_model_compile_args) init /\
    objs w' = <[self := set_callbacks fw (Some l) e]> (objs w) /\
    lists w' !! l = Some cbs /\
    disk w' = disk w /\
    trace w' = trace w ++ map returned build_model_calls.
Proof.
  intros H. unfold build_model in H. unfold_monad. run_in H.
  all: do 6 eexists.
  all: repeat match goal with |- _ /\ _ => split end;
    try eassumption; try reflexivity.
  all: rewrite ?lookup_insert_eq, <- ?app_assoc, ?insert_insert_eq;
    try reflexivity.
  all: try (rewrite <- Heqo0, set_callbacks_same, insert_id; [reflexivity|assumption]).
Qed.

Lemma stops_at_app ex calls more t :
  stops_at ex calls t -> stops_at ex (calls ++ more) t.
Proof. induction 1; cbn; constructor; assumption. Qed.

(** What a call of [build_model] that raises has done. *)
Lemma build_model_raise_inv self s w ex w' e :
  build_model fw self s w = (Raise ex, w') ->
  objs w !! self = Some e ->
  exists c,
    objs w' = <[self := set_callbacks fw c e]> (objs w) /\
    disk w' = disk w /\
    ((exists t, trace w' = trace w ++ t /\ stops_at ex build_model_calls t) \/
     (exists l, callbacks e = Some l /\ lists w !! l = None)).
Proof.
  intros H He. unfold build_model in H. unfold_monad. rewrite He in H.
  run_in H.
  all: try (exists (callbacks e); rewrite set_callbacks_same, insert_id by done;
            do 2 (split; [reflexivity|])).
  all: try (right; eauto; fail).
  all: left; eexists; (split; [rewrite <- ?app_assoc; reflexivity|]).
  all: unfold build_model_calls; repeat constructor.
Qed.

Lemma build_model_no_self self s w r w' :
  objs w !! self = None -> build_model fw self s w = (r, w') -> w' = w.
Proof.
  intros He H. unfold build_model in H. unfold_monad. rewrite He in H.
  by injection H as <- <-.
Qed.

(** Opening the call of [build_model] inside a run of [fit]. *)
Ltac step_build H :=
  match type of H with
  | context [build_model ?f ?self ?s ?W] =>
      let Hb := fresh "Hb" in
      let Hself := fresh "Hself" in
      let Hobjs := fresh "Hobjs" in
      let Hdisk := fresh "Hdisk" in
      let Htrace := fresh "Htrace" in
      destruct (build_model f self s W) as [[?built|?ex] ?w2] eqn:Hb;
      [ let Hcall := fresh "Hcall" in
        pose proof Hb as Hcall;
        apply build_model_ok_inv in Hb
          as (? & ?l & ?cbs & ?layers & ?out & ?init & Hself & ?Hnet & ?Hdense &
              ?Hmodel & -> & Hobjs & ?Hlist & Hdisk & Htrace);
        simp_hyp Hself; rewrite lookup_insert_eq in Hself;
        injection Hself as <-;
        simp_hyp Hobjs; simp_hyp Hdisk; simp_hyp Htrace;
        rewrite ?Hobjs, ?Hdisk, ?Htrace in H
      | eapply build_model_raise_inv in Hb
          as (?c & Hobjs & Hdisk & Htrace);
        [ simp_hyp Hobjs; simp_hyp Hdisk; simp_hyp Htrace;
          rewrite ?Hobjs, ?Hdisk in H
        | simp_goal; apply lookup_insert_eq ] ]
  end.

Ltac run_fit H :=
  unfold fit, save_trained_model in H; unfold_monad;
  repeat first [ step_build H | step_in H ];
  try (injection H as <- <-); simp_goal.

(** What a call of [fit] that returns has done. *)
Lemma fit_ok_inv self X y ic w r w' :
  fit fw self X y ic w = (Ok r, w') ->
  exists e X' w1 w2 built ws h l cbs,
    let s := tail (ndarray_shape fw X') in
    let b := batch_size_used e X' in
    let trained :=
      KerasModel (model_inputs built) (model_outputs built)
        (model_compiled built) ws in
    r = self /\
    objs w !! self = Some e /\
    check_and_clean_data fw X y ic = Ok X' /\
    objs w1 !! self =
      Some (set_batch_size fw (Some b) (set_input_shape fw (Some s) e)) /\
    build_model fw self s w1 = (Ok built, w2) /\
    lists w2 !! l = Some cbs /\
    model_fit fw built X' y (Some b) (nb_epochs e) (verbose e) (Some cbs) =
      Ok (ws, h) /\
    objs w' =
      <[self := set_is_fitted fw true
                  (set_history fw (Some h)
                     (set_model fw (Some trained)
                        (set_callbacks fw (Some l)
                           (set_batch_size fw (Some b)
                              (set_input_shape fw (Some s) e)))))]> (objs w) /\
    lists w' = lists w2 /\
    (forall dir, model_save_directory e = Some dir ->
       model_save fw trained dir (model_name e) = Ok tt) /\
    disk w' = disk w ++ files_saved e trained /\
    trace w' = trace w ++ map returned (fit_calls (verbose e)).
Proof.
  intros H.
  run_fit H.
  all: match goal with
       | Hb : build_model _ _ _ ?W = (Ok ?m, ?w2),
         Hl : lists ?w2 !! ?l = Some ?cbs,
         Hf : model_fit _ _ ?X' _ _ _ _ _ = Ok ?p |- _ =>
           exists e, X', W, w2, m, (fst p), (snd p), l, cbs
       end.
  all: cbn zeta; unfold batch_size_used, files_saved, fit_calls;
    use_eqs;
    repeat match goal with |- _ /\ _ => split end;
    try reflexivity; try assumption.
  all: try (rewrite !insert_insert_eq; reflexivity).
  all: try (rewrite <- !app_assoc; reflexivity).
  all: try (symmetry; apply app_nil_r).
  all: try (intros ? [= <-];
            match goal with
            | E : model_save _ _ _ _ = Ok ?u |- _ => destruct u; exact E
            end).
  all: try (intros; discriminate).
  all: try match goal with
           | Hf : model_fit _ _ _ _ _ _ _ _ = Ok ?p |- _ =>
               destruct p; cbn [fst snd hd] in *; congruence
           end.
Qed.

(** What a call of [fit] that raises has done. *)
Lemma fit_raise_inv self X y ic w ex w' e :
  fit fw self X y ic w = (Raise ex, w') ->
  objs w !! self = Some e ->
  exists e',
    objs w' = <[self := e']> (objs w) /\
    disk w' = disk w /\
    is_fitted e' = is_fitted e /\
    (forall b, batch_size e = Some b -> batch_size e' = Some b) /\
    (forall X', check_and_clean_data fw X y ic = Ok X' ->
       input_shape e' = Some (tail (ndarray_shape fw X'))) /\
    (forall X' n rest, check_and_clean_data fw X y ic = Ok X' ->
       ndarray_shape fw X' = n :: rest -> batch_size e = None ->
       batch_size e' = Some (default_batch_size n)) /\
    (is_Some (model e) -> is_Some (model e')) /\
    (is_Some (input_shape e) -> is_Some (input_shape e')) /\
    ((exists t, trace w' = trace w ++ t /\
                stops_at ex (fit_calls (verbose e)) t) \/
     (exists l, callbacks e = Some l /\ lists w !! l = None) \/
     (exists X', check_and_clean_data fw X y ic = Ok X' /\
                 ndarray_shape fw X' = [] /\ batch_size e = None)).
Proof.
  intros H He.
  unfold fit, save_trained_model in H; unfold_monad. rewrite ?He in H.
  repeat first [ step_build H | step_in H ];
    try (injection H as <- <-); simp_goal.
  all: repeat match goal with
              | E : objs ?v = _ |- context [objs ?v] => rewrite E
              | E : disk ?v = _ |- context [disk ?v] => rewrite E
              end.
  all: eexists; split;
    [ first [ rewrite ?insert_insert_eq; reflexivity
            | symmetry; apply insert_id; exact He ] | ].
  all: simp_goal; split; [reflexivity|]; split; [reflexivity|].
  all: split; [intros; congruence|].
  all: split;
    [intros ? HX;
     first [discriminate HX | injection HX as <-; use_shape; reflexivity]|].
  all: split;
    [intros ? ? ? HX ? ?;
     first [discriminate | injection HX as <-; use_shape; congruence]|].
  all: split; [intros; eauto|].
  all: split; [intros; eauto|].
  all: try (left; eexists;
            split; [rewrite <- ?app_assoc; reflexivity|];
            unfold fit_calls; cbn [app]; repeat constructor; fail).
  all: try (right; right; eexists; split; [reflexivity|]; split; congruence).
  all: match goal with
       | Ht : _ \/ _ |- _ =>
           let tb := fresh "tb" in
           let Htb := fresh "Htb" in
           let Hstop := fresh "Hstop" in
           let lb := fresh "lb" in
           let Hl1 := fresh "Hl1" in
           let Hl2 := fresh "Hl2" in
           destruct Ht as [(tb & Htb & Hstop) | (lb & Hl1 & Hl2)];
           [ left; simp_hyp Htb; rewrite Htb;
             exists (returned call_check_and_clean_data :: tb);
             split; [rewrite <- app_assoc; reflexivity|];
             unfold fit_calls; cbn [app]; apply stops_later;
             exact (stops_at_app _ build_model_calls _ _ Hstop)
           | right; left; exists lb; split; assumption ]
       end.
Qed.

Lemma build_model_model_irrelevant self s base e1 e2 ls d t r w' :
  set_model fw None e1 = set_model fw None e2 ->
  build_model fw self s (World fw (<[self := e1]> base) ls d t) = (r, w') ->
  exists c,
    objs w' = <[self := set_callbacks fw c e1]> base /\
    build_model fw self s (World fw (<[self := e2]> base) ls d t) =
      (r, World fw (<[self := set_callbacks fw c e2]> base)
            (lists w') (disk w') (trace w')).
Proof.
  intros Heq H.
  destruct e1, e2. cbn in Heq.
  injection Heq as -> -> -> -> -> -> -> -> -> -> -> -> -> -> -> ->.
  unfold build_model, params_of in *; unfold_monad. simp_world.
  run_in H.
  all: eexists; split;
    [ rewrite ?insert_insert_eq; simp_goal; reflexivity
    | eval_goal; rewrite ?insert_insert_eq; try reflexivity ].
Qed.

(** The result of [fit] and the state it leaves do not depend on the model
    attached before the call. *)
Lemma fit_model_irrelevant self X y ic w e mo r w' :
  objs w !! self = Some e ->
  fit fw self X y ic w = (Ok r, w') ->
  fit fw self X y ic
    (World fw (<[self := set_model fw mo e]> (objs w)) (lists w) (disk w)
       (trace w)) = (Ok r, w').
Proof.
  intros He H. destruct e.
  unfold fit, save_trained_model in *; unfold_monad; unfold_setters.
  simp_world.
  repeat first
    [ rewrite insert_insert_eq in H
    | match type of H with
      | context [build_model ?f ?a ?s
                   (World _ (<[?a := ?e1]> ?base) ?ls ?d ?t)] =>
          let Hb := fresh "Hb" in
          let Hobjs := fresh "Hobjs" in
          let Hg := fresh "Hgoal" in
          destruct (build_model f a s (World _ (<[a := e1]> base) ls d t))
            as [[?built|?ex] ?w2] eqn:Hb;
          [ apply (build_model_model_irrelevant a s base e1
                     (set_model f mo e1)) in Hb as (?c & Hobjs & Hg);
            [ unfold_setters; simp_hyp Hg; simp_hyp Hobjs;
              rewrite ?Hobjs in H
            | reflexivity ]
          | simp_hyp H; discriminate H ]
      end
    | step_in H ].
  all: injection H as <- <-.
  all: repeat first
    [ rewrite lookup_insert_eq
    | rewrite insert_insert_eq
    | progress simp_goal
    | match goal with
      | E : build_model _ _ _ _ = _ |- _ => rewrite E
      | E : ?x = _ |- context [match ?x with _ => _ end] => rewrite E
      end ].
  all: reflexivity.
Qed.

Lemma fit_no_self self X y ic w r w' :
  objs w !! self = None -> fit fw self X y ic w = (r, w') ->
  objs w' = objs w /\ exists ex, r = Raise ex.
Proof.
  intros He H. unfold fit in H. unfold_monad.
  run_in H; eauto.
Qed.

(** What [build_model] does to the estimators: only [self.callbacks]
    may change. *)
Lemma build_model_objs self s w r w' :
  build_model fw self s w = (r, w') ->
  (objs w !! self = None /\ objs w' = objs w) \/
  (exists e c, objs w !! self = Some e /\
               objs w' = <[self := set_callbacks fw c e]> (objs w)).
Proof.
  intros H. destruct (objs w !! self) as [e|] eqn:He.
  - right. exists e. destruct r as [m|ex].
    + apply build_model_ok_inv in H
        as (e0 & l & cbs & layers & out & init & He0 & _ & _ & _ & _ & Ho & _).
      exists (Some l). split; [done|]. congruence.
    + eapply build_model_raise_inv in H as (c & Ho & _); eauto.
  - left. split; [done|]. by rewrite (build_model_no_self _ _ _ _ _ He H).
Qed.

Lemma init_objs kw w :
  exists self e0,
    objs w !! self = None /\ is_fitted e0 = false /\
    InceptionTimeRegressor_init fw kw w =
      (Ok self, World fw (<[self := e0]> (objs w)) (lists w) (disk w) (trace w)).
Proof.
  eexists (fresh (dom (objs w))), _. split; [|split; [|reflexivity]].
  - apply not_elem_of_dom, is_fresh.
  - reflexivity.
Qed.

(** What any operation does to an estimator that exists. *)
Lemma run_estimator o w a e :
  objs w !! a = Some e ->
  exists e',
    objs (run o w) !! a = Some e' /\
    (forall b, batch_size e = Some b -> batch_size e' = Some b) /\
    (is_fit_op o = false -> input_shape e' = input_shape e) /\
    (is_fit_op o = false -> is_fitted e' = is_fitted e) /\
    (is_fit_op o = false -> model e' = model e).
Proof.
  intros He. destruct o as [kw | self s | self X y ic]; cbn [run is_fit_op].
  - destruct (init_objs kw w) as (self & e0 & Hnone & _ & ->). cbn [snd objs].
    exists e. rewrite lookup_insert_ne by congruence. auto.
  - destruct (build_model fw self s w) as [r w'] eqn:Hb. cbn [snd].
    destruct (build_model_objs _ _ _ _ _ Hb)
      as [[Hnone ->] | (e1 & c & He1 & ->)]; [eauto 10|].
    destruct (decide (self = a)) as [->|Hne].
    + rewrite lookup_insert_eq. assert (e1 = e) as -> by congruence.
      eexists; split; [reflexivity|]. auto.
    + rewrite lookup_insert_ne by done. eauto 10.
  - destruct (fit fw self X y ic w) as [r w'] eqn:Hf. cbn [snd].
    destruct (objs w !! self) as [e1|] eqn:He1.
    + destruct r as [r|ex].
      * apply fit_ok_inv in Hf
          as (e2 & X' & w1 & w2 & built & ws & h & l & cbs & _ & He2 & _ & _ &
              _ & _ & _ & -> & _).
        destruct (decide (self = a)) as [->|Hne].
        -- rewrite lookup_insert_eq. eexists; split; [reflexivity|].
           repeat split; try discriminate.
           intros b Hb. assert (e2 = e) as -> by congruence.
           unfold batch_size_used. cbn. by rewrite Hb.
        -- rewrite lookup_insert_ne by done. exists e.
           repeat split; auto; discriminate.
      * eapply fit_raise_inv in Hf as (e' & -> & _ & _ & Hb & _); [|exact He1].
        destruct (decide (self = a)) as [->|Hne].
        -- rewrite lookup_insert_eq. exists e'. assert (e1 = e) as -> by congruence.
           repeat split; auto; discriminate.
        -- rewrite lookup_insert_ne by done. exists e.
           repeat split; auto; discriminate.
    + destruct (fit_no_self _ _ _ _ _ _ _ He1 Hf) as [-> _].
      exists e. repeat split; auto; discriminate.
Qed.


Lemma run_all_estimator ops w a e :
  objs w !! a = Some e ->
  exists e',
    objs (run_all ops w) !! a = Some e' /\
    (forall b, batch_size e = Some b -> batch_size e' = Some b) /\
    (forallb (fun o => negb (is_fit_op o)) ops = true ->
     input_shape e' = input_shape e).
Proof.
  revert w e. induction ops as [|o ops IH]; intros w e He; cbn.
  - eauto.
  - destruct (run_estimator o w a e He) as (e1 & He1 & Hb1 & Hs1 & _).
    destruct (IH _ _ He1) as (e2 & He2 & Hb2 & Hs2).
    exists e2. split; [exact He2|]. split; [auto|].
    intros [Ho Hops]%andb_true_iff. apply negb_true_iff in Ho.
    rewrite Hs2, Hs1; auto.
Qed.

Lemma fit_calls_NoDup v : NoDup (fit_calls v).
Proof.
  destruct v; cbn;
    repeat (apply NoDup_cons_2;
            [intros Hin;
             repeat (apply elem_of_cons in Hin as [Hin|Hin]; [discriminate|]);
             by apply elem_of_nil in Hin|]);
    apply NoDup_nil_2.
Qed.

(** C3: a call of [fit] that returns, returns [self]; on return
    [self.is_fitted] is True and [self.model] is set to the model that
    [model.fit] trained on the cleaned data. *)
Theorem fit_returns_self_with_trained_model self X y ic w r w' :
  fit fw self X y ic w = (Ok r, w') ->
  r = self /\
  exists e' m,
    objs w' !! self = Some e' /\ model e' = Some m /\ is_fitted e' = true /\
    exists X' built h,
      check_and_clean_data fw X y ic = Ok X' /\
      model_fit fw built X' y (batch_size e') (nb_epochs e') (verbose e')
        (Some (callbacks_of self w')) = Ok (model_weights m, h) /\
      m = KerasModel (model_inputs built) (model_outputs built)
            (model_compiled built) (model_weights m) /\
      history e' = Some h.
Proof.
  intros H.
  apply fit_ok_inv in H
    as (e & X' & w1 & w2 & built & ws & h & l & cbs & Hr & He & Hcheck & Hw1 &
        Hbuild & Hlist & Hfit & Hobjs & Hlists & Hsave & Hdisk & Htrace).
  split; [exact Hr|].
  do 2 eexists. split; [rewrite Hobjs; apply lookup_insert_eq|].
  cbn. split; [reflexivity|]. split; [reflexivity|].
  exists X', built, h. split; [exact Hcheck|].
  unfold callbacks_of. rewrite Hobjs, lookup_insert_eq. cbn.
  rewrite Hlists, Hlist. cbn. auto.
Qed.

(** C5: every call of [fit] whose input was cleaned -- and has an instance
    axis, where the batch size is taken from it -- calls [build_model], in
    the state with the new [input_shape] and [batch_size], whatever
    [self.model] was before, and what [fit] does next continues that call.
    When [build_model] raises, [fit] raises its error there.  When it
    returns, the model it returned is [self.model] before anything is
    trained: it is there when [model.summary] raises, with the weights it
    was created with; it is there when [model.fit] raises, with the
    weights the interrupted training left; and it is there, trained, once
    [model.fit] has returned.  A call that returns gives the same result
    in the same final state whatever [self.model] was before. *)
Theorem fit_rebuilds_model_on_every_call self X y ic w r w' e X' :
  objs w !! self = Some e ->
  check_and_clean_data fw X y ic = Ok X' ->
  (batch_size e = None -> ndarray_shape fw X' <> []) ->
  fit fw self X y ic w = (r, w') ->
  let s := tail (ndarray_shape fw X') in
  let b := batch_size_used e X' in
  let w1 :=
    World fw
      (<[self := set_batch_size fw (Some b)
                   (set_input_shape fw (Some s) e)]> (objs w))
      (lists w) (disk w)
      (trace w ++ [returned call_check_and_clean_data]) in
  (exists rb w2,
     build_model fw self s w1 = (rb, w2) /\
     match rb with
     | Raise ex => r = Raise ex /\ w' = w2
     | Ok built =>
         let cbs := Some (callbacks_of self w2) in
         exists e' ws t,
           objs w' !! self = Some e' /\
           model e' =
             Some (KerasModel (model_inputs built) (model_outputs built)
                     (model_compiled built) ws) /\
           trace w' = trace w2 ++ t /\
           ((exists ex,
               verbose e = true /\ summary fw built = Raise ex /\
               r = Raise ex /\ t = [(call_summary, Raised ex)] /\
               ws = model_weights built) \/
            (exists ex,
               model_fit fw built X' y (Some b) (nb_epochs e) (verbose e)
                 cbs = Raise ex /\
               r = Raise ex /\
               last t = Some (call_model_fit, Raised ex) /\
               ws = model_fit_interrupted fw built X' y (Some b)
                      (nb_epochs e) (verbose e) cbs) \/
            (exists h,
               model_fit fw built X' y (Some b) (nb_epochs e) (verbose e)
                 cbs = Ok (ws, h) /\
               In (call_model_fit, Returned) t))
     end) /\
  (forall old ok,
     r = Ok ok ->
     fit fw self X y ic
       (World fw (<[self := set_model fw old e]> (objs w)) (lists w) (disk w)
          (trace w)) = (r, w')).
Proof.
  intros He HX Hshape H. cbn zeta. split.
  - unfold fit, save_trained_model in H; unfold_monad.
    repeat first
      [ rewrite insert_insert_eq in H
      | match type of H with
        | context [build_model ?f ?a ?s0 ?W] =>
            let Hb := fresh "Hb" in
            let Hcall := fresh "Hcall" in
            let Hself := fresh "Hself" in
            let Hobjs := fresh "Hobjs" in
            let Hdisk := fresh "Hdisk" in
            let Htrace := fresh "Htrace" in
            destruct (build_model f a s0 W) as [[?built|?exb] ?w2] eqn:Hb;
            [ pose proof Hb as Hcall;
              apply build_model_ok_inv in Hb
                as (? & ?l & ?cbs & ?layers & ?out & ?init & Hself & ?Hnet &
                    ?Hdense & ?Hmodel & -> & Hobjs & ?Hlist & Hdisk & Htrace);
              simp_hyp Hself; rewrite lookup_insert_eq in Hself;
              injection Hself as <-;
              simp_hyp Hobjs; simp_hyp Hdisk; simp_hyp Htrace;
              rewrite ?Hobjs in H
            | simp_hyp H; injection H as <- <- ]
        end
      | step_in H ];
      try (injection H as <- <-); simp_goal.
    all: unfold batch_size_used; use_eqs; use_shape.
    all: try (exfalso; apply Hshape; first [reflexivity | assumption]).
    all: do 2 eexists;
      (split; [match goal with Hc : build_model _ _ _ _ = _ |- _ => exact Hc end|]);
      cbn beta iota zeta.
    all: try (split; reflexivity).
    all: do 3 eexists.
    all: split; [reflexivity|].
    all: simp_goal; split; [reflexivity|].
    all: split;
      [match goal with Ht : trace _ = _ |- _ => rewrite Ht end;
       rewrite <- ?app_assoc; reflexivity|].
    all: unfold callbacks_of;
      repeat match goal with
             | E : objs ?v = _ |- context [objs ?v] => rewrite E
             end;
      rewrite ?lookup_insert_eq; simp_goal;
      repeat match goal with
             | E : lists ?v !! _ = _ |- context [lists ?v !! _] => rewrite E
             end; cbn [default from_option id].
    all: repeat match goal with
                | p : (weights _ * History _)%type |- _ => destruct p
                end; cbn [fst snd] in *.
    all: repeat match goal with
                | E : verbose ?x = _, H' : context [verbose ?x] |- _ =>
                    rewrite E in H'
                end.
    all: first
      [ left; eexists; split; [reflexivity|]; split; [eassumption|];
        split; [reflexivity|]; split; reflexivity
      | right; left; eexists; split; [eassumption|]; split; [reflexivity|];
        split; reflexivity
      | right; right; eexists; split; [eassumption|]; cbn; auto 10 ].
  - intros old ok ->. eapply fit_model_irrelevant; eassumption.
Qed.



(** C2, amended: [fit] does validate its input, once, before anything else:
    with [input_checks] set, a pair (X, y) that the checks reject makes
    [fit] raise their error with no other call made.  Beyond that step
    there is no retry and no recovery: the calls of [fit] are made in a
    fixed order, each at most once, and an error raised by one of them is
    raised by [fit] with nothing called after it. *)
Theorem fit_checks_once_then_delegates self X y ic w r w' e :
  objs w !! self = Some e ->
  (forall l, callbacks e = Some l -> is_Some (lists w !! l)) ->
  (forall X', check_and_clean_data fw X y ic = Ok X' ->
              ndarray_shape fw X' <> []) ->
  fit fw self X y ic w = (r, w') ->
  (forall ex, ic = true -> check_X_y fw X y = Raise ex ->
     r = Raise ex /\
     trace w' = trace w ++ [(call_check_and_clean_data, Raised ex)]) /\
  NoDup (fit_calls (verbose e)) /\
  match r with
  | Ok _ => trace w' = trace w ++ map returned (fit_calls (verbose e))
  | Raise ex =>
      exists t, trace w' = trace w ++ t /\
                stops_at ex (fit_calls (verbose e)) t
  end.
Proof.
  intros He Hl Hs H. split; [|split; [apply fit_calls_NoDup|]].
  - intros ex -> Hx. unfold fit in H. unfold_monad.
    unfold check_and_clean_data in H. rewrite Hx in H.
    by injection H as <- <-.
  - destruct r as [r|ex].
    + apply fit_ok_inv in H
        as (e0 & X' & w1 & w2 & built & ws & h & l & cbs & _ & He0 & _ & _ &
            _ & _ & _ & _ & _ & _ & _ & Htrace).
      assert (e0 = e) as -> by congruence. exact Htrace.
    + eapply fit_raise_inv in H
        as (e' & _ & _ & _ & _ & _ & _ & _ & _ & Ht); [|exact He].
      destruct Ht as [Ht | [(l & Hl1 & Hl2) | (X' & HX & Hnil & _)]].
      * exact Ht.
      * destruct (Hl l Hl1) as [cbs Hcbs]. congruence.
      * by destruct (Hs X' HX).
Qed.

(** C6: a call of [fit] whose input was cleaned sets [self.input_shape]
    to the shape of the cleaned array without its first dimension, and no
    sequence of operations other than [fit] changes it afterwards. *)
Theorem fit_sets_input_shape_and_only_fit_changes_it
    self X y ic w r w' e X' :
  objs w !! self = Some e ->
  check_and_clean_data fw X y ic = Ok X' ->
  fit fw self X y ic w = (r, w') ->
  exists e',
    objs w' !! self = Some e' /\
    input_shape e' = Some (tail (ndarray_shape fw X')) /\
    forall ops,
      forallb (fun o => negb (is_fit_op o)) ops = true ->
      exists e'',
        objs (run_all ops w') !! self = Some e'' /\
        input_shape e'' = Some (tail (ndarray_shape fw X')).
Proof.
  intros He HX H.
  assert (exists e', objs w' !! self = Some e' /\
            input_shape e' = Some (tail (ndarray_shape fw X')))
    as (e' & He' & Hshape).
  { destruct r as [r|ex].
    - apply fit_ok_inv in H
        as (e0 & X0 & w1 & w2 & built & ws & h & l & cbs & _ & He0 & HX0 & _ &
            _ & _ & _ & Hobjs & _).
      eexists. split; [rewrite Hobjs; apply lookup_insert_eq|].
      cbn. congruence.
    - eapply fit_raise_inv in H
        as (e' & Hobjs & _ & _ & _ & Hshape & _); [|exact He].
      exists e'. split; [rewrite Hobjs; apply lookup_insert_eq|]. auto. }
  exists e'. split; [exact He'|]. split; [exact Hshape|].
  intros ops Hops.
  destruct (run_all_estimator ops w' self e' He') as (e'' & He'' & _ & Hkeep).
  exists e''. split; [exact He''|]. rewrite Hkeep; auto.
Qed.

(** C8: when [self.batch_size] is None, [fit] sets it to
    [int(max(1, min(n / 10, 16)))], with [n] the number of instances of
    the cleaned array: a value between 1 and 16; when it is not None it is
    left as it is; and the value [fit] leaves stays through every later
    operation. *)
Theorem fit_sets_default_batch_size self X y ic w r w' e X' :
  objs w !! self = Some e ->
  check_and_clean_data fw X y ic = Ok X' ->
  fit fw self X y ic w = (r, w') ->
  exists e',
    objs w' !! self = Some e' /\
    match batch_size e with
    | Some b => batch_size e' = Some b
    | None =>
        forall n rest,
          ndarray_shape fw X' = n :: rest ->
          batch_size e' = Some (default_batch_size n) /\
          default_batch_size n = Z.max 1 (Z.min (n / 10) 16) /\
          1 <= default_batch_size n <= 16
    end /\
    forall b ops,
      batch_size e' = Some b ->
      exists e'',
        objs (run_all ops w') !! self = Some e'' /\ batch_size e'' = Some b.
Proof.
  intros He HX H.
  assert (exists e', objs w' !! self = Some e' /\
            (forall b, batch_size e = Some b -> batch_size e' = Some b) /\
            (forall n rest, ndarray_shape fw X' = n :: rest ->
               batch_size e = None ->
               batch_size e' = Some (default_batch_size n)))
    as (e' & He' & Hsome & Hnone).
  { destruct r as [r|ex].
    - apply fit_ok_inv in H
        as (e0 & X0 & w1 & w2 & built & ws & h & l & cbs & _ & He0 & HX0 & _ &
            _ & _ & _ & Hobjs & _).
      assert (e0 = e) as -> by congruence.
      assert (X0 = X') as -> by congruence.
      eexists. split; [rewrite Hobjs; apply lookup_insert_eq|].
      cbn. unfold batch_size_used. split.
      + by intros b ->.
      + by intros n rest -> ->.
    - eapply fit_raise_inv in H
        as (e' & Hobjs & _ & _ & Hb & _ & Hn & _); [|exact He].
      exists e'. split; [rewrite Hobjs; apply lookup_insert_eq|]. eauto. }
  exists e'. split; [exact He'|]. split.
  - destruct (batch_size e) as [b|] eqn:Hb; [auto|].
    intros n rest Hshape. split; [eauto|].
    split; [apply default_batch_size_value | apply default_batch_size_bounds].
  - intros b ops Hb.
    destruct (run_all_estimator ops w' self e' He') as (e'' & He'' & Hkeep & _).
    eauto.
Qed.

Lemma run_preserves_invariant o w :
  fitted_invariant w -> fitted_invariant (run o w).
Proof.
  intros Hinv a e' He' Hfitted.
  destruct o as [kw | self s | self X y ic]; cbn [run] in He'.
  - destruct (init_objs kw w) as (self & e0 & Hnone & Hf0 & Heq).
    rewrite Heq in He'. cbn [snd objs] in He'.
    destruct (decide (self = a)) as [->|Hne].
    + rewrite lookup_insert_eq in He'. congruence.
    + rewrite lookup_insert_ne in He' by done. eauto.
  - destruct (build_model fw self s w) as [r w'] eqn:Hb. cbn [snd] in He'.
    destruct (build_model_objs _ _ _ _ _ Hb)
      as [[Hnone Ho] | (e1 & c & He1 & Ho)]; rewrite Ho in He'; [eauto|].
    destruct (decide (self = a)) as [->|Hne].
    + rewrite lookup_insert_eq in He'. injection He' as <-.
      exact (Hinv a e1 He1 Hfitted).
    + rewrite lookup_insert_ne in He' by done. eauto.
  - destruct (fit fw self X y ic w) as [r w'] eqn:Hf. cbn [snd] in He'.
    destruct (objs w !! self) as [e1|] eqn:He1.
    + destruct r as [r|ex].
      * apply fit_ok_inv in Hf
          as (e2 & X' & w1 & w2 & built & ws & h & l & cbs & _ & He2 & _ & _ &
              _ & _ & _ & Ho & _).
        rewrite Ho in He'. destruct (decide (self = a)) as [->|Hne].
        -- rewrite lookup_insert_eq in He'. injection He' as <-. cbn. eauto.
        -- rewrite lookup_insert_ne in He' by done. eauto.
      * eapply fit_raise_inv in Hf
          as (e2 & Ho & _ & Hfit & _ & _ & _ & Hm & Hs & _); [|exact He1].
        rewrite Ho in He'. destruct (decide (self = a)) as [->|Hne].
        -- rewrite lookup_insert_eq in He'. injection He' as <-.
           rewrite Hfit in Hfitted.
           destruct (Hinv a e1 He1 Hfitted). auto.
        -- rewrite lookup_insert_ne in He' by done. eauto.
    + destruct (fit_no_self _ _ _ _ _ _ _ He1 Hf) as [Ho _].
      rewrite Ho in He'. eauto.
Qed.

Lemma fit_calls_end v :
  map returned (fit_calls v) =
  map returned
    ([call_check_and_clean_data; call_build_network; call_Dense; call_Model;
      call_compile] ++ (if v then [call_summary] else [])) ++
  [(call_model_fit, Returned); (call_save_trained_model, Returned)].
Proof. by destruct v. Qed.

(** An estimator is fitted after an operation only if it was fitted before,
    or the operation is a [fit] on it that returned. *)
Lemma run_sets_is_fitted o w a e' :
  objs (run o w) !! a = Some e' -> is_fitted e' = true ->
  (exists e, objs w !! a = Some e /\ is_fitted e = true) \/
  (exists X y ic t,
     o = op_fit fw a X y ic /\
     fit fw a X y ic w = (Ok a, run o w) /\
     trace (run o w) =
       trace w ++ t ++
       [(call_model_fit, Returned); (call_save_trained_model, Returned)]).
Proof.
  intros He' Hfitted.
  destruct o as [kw | self s | self X y ic]; cbn [run] in *.
  - left. destruct (init_objs kw w) as (self & e0 & Hnone & Hf0 & Heq).
    rewrite Heq in He'. cbn [snd objs] in He'.
    destruct (decide (self = a)) as [->|Hne].
    + rewrite lookup_insert_eq in He'. congruence.
    + rewrite lookup_insert_ne in He' by done. eauto.
  - left. destruct (build_model fw self s w) as [r w'] eqn:Hb. cbn [snd] in He'.
    destruct (build_model_objs _ _ _ _ _ Hb)
      as [[Hnone Ho] | (e1 & c & He1 & Ho)]; rewrite Ho in He'; [eauto|].
    destruct (decide (self = a)) as [->|Hne].
    + rewrite lookup_insert_eq in He'. injection He' as <-. eauto.
    + rewrite lookup_insert_ne in He' by done. eauto.
  - destruct (fit fw self X y ic w) as [r w'] eqn:Hf. cbn [snd] in *.
    destruct (objs w !! self) as [e1|] eqn:He1.
    + destruct r as [r|ex].
      * pose proof Hf as Hfit. apply fit_ok_inv in Hf
          as (e2 & X' & w1 & w2 & built & ws & h & l & cbs & -> & He2 & _ & _ &
              _ & _ & _ & Ho & _ & _ & _ & Htrace).
        rewrite Ho in He'. destruct (decide (self = a)) as [->|Hne].
        -- right. exists X, y, ic. eexists. split; [reflexivity|].
           split; [exact Hfit|]. rewrite Htrace, fit_calls_end. reflexivity.
        -- left. rewrite lookup_insert_ne in He' by done. eauto.
      * left. eapply fit_raise_inv in Hf
          as (e2 & Ho & _ & Hfit & _); [|exact He1].
        rewrite Ho in He'. destruct (decide (self = a)) as [->|Hne].
        -- rewrite lookup_insert_eq in He'. injection He' as <-.
           exists e1. split; [done|]. congruence.
        -- rewrite lookup_insert_ne in He' by done. eauto.
    + left. destruct (fit_no_self _ _ _ _ _ _ _ He1 Hf) as [Ho _].
      rewrite Ho in He'. eauto.
Qed.

(** C10: in every reachable state an estimator that is fitted has a model
    and an input shape; and an estimator is fitted after an operation only
    if it was already, or the operation is a [fit] on it that returned,
    after training and then saving the model. *)
Theorem reachable_fitted_invariant w :
  reachable w ->
  fitted_invariant w /\
  forall o a e',
    objs (run o w) !! a = Some e' -> is_fitted e' = true ->
    (exists e, objs w !! a = Some e /\ is_fitted e = true) \/
    (exists X y ic t,
       o = op_fit fw a X y ic /\
       fit fw a X y ic w = (Ok a, run o w) /\
       trace (run o w) =
         trace w ++ t ++
         [(call_model_fit, Returned); (call_save_trained_model, Returned)]).
Proof.
  intros Hreach. split.
  - induction Hreach as [w Hempty | o w Hreach IH].
    + intros a e He. rewrite Hempty, lookup_empty in He. discriminate.
    + by apply run_preserves_invariant.
  - intros o a e'. apply run_sets_is_fitted.
Qed.

End Properties.

(** ** Further properties of the constructor, build_model and fit *)

Section FurtherProperties.

Variable fw : framework.
Implicit Types (w : world fw) (e : estimator fw) (self : loc).

(** What [build_model] does to a list that exists: nothing, or -- when it
    is the list of [self.callbacks] and holds no [ReduceLROnPlateau] -- one
    default appended. *)
Lemma build_model_lists self s w r w' l cbs :
  build_model fw self s w = (r, w') ->
  lists w !! l = Some cbs ->
  lists w' !! l = Some cbs \/
  (existsb is_ReduceLROnPlateau cbs = false /\
   lists w' !! l = Some (cbs ++ [default_reduce_lr]) /\
   exists e, objs w !! self = Some e /\ callbacks e = Some l).
Proof.
  intros H Hl. unfold build_model in H. unfold_monad.
  run_in H; auto.
  all: match goal with
       | |- context [<[?a := _]> _ !! ?k] =>
           destruct (decide (a = k)) as [<-|Hne];
           [|left; by rewrite !lookup_insert_ne]
       end.
  all: try (exfalso; pose proof (is_fresh (dom (lists w))) as Hf;
            apply not_elem_of_dom in Hf; congruence).
  right. rewrite lookup_insert_eq.
  match goal with
  | E1 : lists w !! ?p = Some ?c1, E2 : lists w !! ?p = Some ?c2 |- _ =>
      rewrite E1 in E2; injection E2 as <-
  end.
  split; [by destruct (existsb _ _)|]. split; [done|]. eauto.
Qed.

(** A call of [build_model] that raises has changed nothing but the
    trace. *)
Lemma build_model_raise_state self s w ex w' :
  build_model fw self s w = (Raise ex, w') ->
  objs w' = objs w /\ lists w' = lists w /\ disk w' = disk w.
Proof.
  intros H. unfold build_model in H. unfold_monad.
  run_in H; auto.
Qed.

(** The first call of [build_model] on an estimator whose [callbacks] is
    None creates one new list, holding the default callback. *)
Lemma build_model_new_list self s w m w' e :
  objs w !! self = Some e -> callbacks e = None ->
  build_model fw self s w = (Ok m, w') ->
  exists l, lists w !! l = None /\
    objs w' = <[self := set_callbacks fw (Some l) e]> (objs w) /\
    lists w' = <[l := [default_reduce_lr]]> (lists w).
Proof.
  intros He Hc H. unfold build_model in H. unfold_monad. rewrite He in H.
  run_in H; try congruence.
  all: try match goal with
           | E : negb (existsb _ []) = false |- _ => discriminate E
           end.
  exists (fresh (dom (lists w))). split; [|split].
  - apply not_elem_of_dom, is_fresh.
  - reflexivity.
  - apply insert_insert_eq.
Qed.

(** The trace of a call of [build_model] that raises: nothing was called,
    or the last call is one of [build_model] and raised. *)
Lemma build_model_raise_last self s w ex w' :
  build_model fw self s w = (Raise ex, w') ->
  (exists t, trace w' = trace w ++ t) /\
  (trace w' = trace w ++ map returned build_model_calls \/
   trace w' = trace w \/
   exists c, last (trace w') = Some (c, Raised ex) /\ In c build_model_calls).
Proof.
  intros H. unfold build_model in H. unfold_monad.
  run_in H.
  all: split; [eexists; rewrite <- ?app_assoc; try reflexivity;
               symmetry; apply app_nil_r|].
  all: try (right; left; reflexivity).
  all: try (left; rewrite <- ?app_assoc; reflexivity).
  all: right; right; eexists; rewrite last_snoc; split; [reflexivity|];
    cbn; auto.
Qed.

(** X1: [build_model] assigns no attribute but [self.callbacks], creates
    no estimator, writes no file, and leaves every list alone that is not
    the list of [self.callbacks]. *)
Theorem build_model_changes_only_callbacks self s w r w' :
  build_model fw self s w = (r, w') ->
  disk w' = disk w /\
  (forall a, objs w !! a = None -> objs w' !! a = None) /\
  (forall a e, objs w !! a = Some e ->
     exists e', objs w' !! a = Some e' /\
       set_callbacks fw None e' = set_callbacks fw None e /\
       (a <> self -> e' = e)) /\
  (forall l cbs, lists w !! l = Some cbs ->
     (forall e, objs w !! self = Some e -> callbacks e <> Some l) ->
     lists w' !! l = Some cbs).
Proof.
  intros H. split; [|split; [|split]].
  - destruct r as [m|ex].
    + apply build_model_ok_inv in H. destruct H as (? & ? & ? & ? & ? & ? & H).
      apply H.
    + apply build_model_raise_state in H. apply H.
  - intros a Ha.
    destruct (build_model_objs _ _ _ _ _ _ H)
      as [[_ ->] | (e & c & He & ->)]; [done|].
    rewrite lookup_insert_ne; [done | congruence].
  - intros a e Ha.
    destruct (build_model_objs _ _ _ _ _ _ H)
      as [[_ ->] | (e1 & c & He & ->)]; [eauto|].
    destruct (decide (self = a)) as [->|Hne].
    + rewrite lookup_insert_eq. assert (e1 = e) as -> by congruence.
      eexists. split; [reflexivity|]. split; [done|]. congruence.
    + rewrite lookup_insert_ne by done. eauto.
  - intros l cbs Hl Hother.
    destruct (build_model_lists _ _ _ _ _ _ _ H Hl)
      as [Hsame | (_ & _ & e & He & Hc)]; [exact Hsame|].
    destruct (Hother e He Hc).
Qed.

(** X2: a call of [build_model] that raises has changed no estimator, no
    list and no file: the default callback is added only once the model
    is compiled, so [self.callbacks] is as it was, None included. *)
Theorem build_model_failure_leaves_callbacks_untouched self s w ex w' :
  build_model fw self s w = (Raise ex, w') ->
  objs w' = objs w /\ lists w' = lists w /\ disk w' = disk w /\
  callbacks_of self w' = callbacks_of self w /\
  exists t, trace w' = trace w ++ t.
Proof.
  intros H.
  destruct (build_model_raise_state _ _ _ _ _ H) as (Ho & Hl & Hd).
  destruct (build_model_raise_last _ _ _ _ _ H) as [Ht _].
  repeat split; try assumption.
  unfold callbacks_of. by rewrite Ho, Hl.
Qed.

(** X3: two estimators constructed with the same list share it: once
    [build_model] has returned for one of them, the other one has the
    default callback as well, and its own [build_model] appends nothing;
    the two see the same callbacks afterwards. *)
Theorem build_model_shared_callbacks_list a b s s' w m w' l ea eb :
  a <> b ->
  objs w !! a = Some ea -> objs w !! b = Some eb ->
  callbacks ea = Some l -> callbacks eb = Some l ->
  build_model fw a s w = (Ok m, w') ->
  callbacks_of b w' = callbacks_of a w' /\
  existsb is_ReduceLROnPlateau (callbacks_of b w') = true /\
  forall r w'',
    build_model fw b s' w' = (r, w'') ->
    callbacks_of b w'' = callbacks_of a w' /\
    callbacks_of a w'' = callbacks_of a w'.
Proof.
  intros Hab Ha Hb Hla Hlb H.
  destruct (build_model_keeps_list_object _ _ _ _ _ _ _ _ H Ha Hla)
    as (ea' & Ha' & Hla' & Hlist).
  assert (Hb' : objs w' !! b = Some eb).
  { destruct (build_model_objs _ _ _ _ _ _ H)
      as [[Hnone _] | (e & c & _ & ->)]; [congruence|].
    by rewrite lookup_insert_ne. }
  assert (Heq : callbacks_of b w' = callbacks_of a w').
  { unfold callbacks_of at 1. by rewrite Hb', Hlb, Hlist. }
  pose proof (build_model_ok_has_ReduceLROnPlateau _ _ _ _ _ _ H) as Hhas.
  split; [exact Heq|]. split; [by rewrite Heq|].
  intros r w'' H2.
  assert (Hl2 : lists w'' !! l = Some (callbacks_of a w')).
  { destruct (build_model_lists _ _ _ _ _ _ _ H2 Hlist)
      as [Hsame | (Hno & _)]; [exact Hsame | congruence]. }
  split.
  - destruct (build_model_callbacks_step _ _ _ _ _ _ H2) as [Hsame | [Hno _]].
    + by rewrite Hsame.
    + rewrite Heq in Hno. congruence.
  - unfold callbacks_of at 1.
    destruct (build_model_objs _ _ _ _ _ _ H2)
      as [[_ ->] | (e & c & _ & ->)].
    + by rewrite Ha', Hla', Hl2.
    + rewrite lookup_insert_ne by congruence. by rewrite Ha', Hla', Hl2.
Qed.

(** X4: estimators constructed with [callbacks=None] do not share a list:
    [build_model] gives each of them a list of its own, holding the
    default callback only, and changes no list that existed. *)
Theorem build_model_gives_each_estimator_its_own_list
    a b sa sb w ma w1 mb w2 ea eb :
  a <> b ->
  objs w !! a = Some ea -> objs w !! b = Some eb ->
  callbacks ea = None -> callbacks eb = None ->
  build_model fw a sa w = (Ok ma, w1) ->
  build_model fw b sb w1 = (Ok mb, w2) ->
  exists la lb ea' eb',
    la <> lb /\
    objs w2 !! a = Some ea' /\ callbacks ea' = Some la /\
    objs w2 !! b = Some eb' /\ callbacks eb' = Some lb /\
    lists w2 !! la = Some [default_reduce_lr] /\
    lists w2 !! lb = Some [default_reduce_lr] /\
    (forall l cbs, lists w !! l = Some cbs -> lists w2 !! l = Some cbs).
Proof.
  intros Hab Ha Hb Hca Hcb H1 H2.
  destruct (build_model_new_list _ _ _ _ _ _ Ha Hca H1)
    as (la & Hla & Ho1 & Hl1).
  assert (Hb1 : objs w1 !! b = Some eb)
    by (rewrite Ho1, lookup_insert_ne; done).
  destruct (build_model_new_list _ _ _ _ _ _ Hb1 Hcb H2)
    as (lb & Hlb & Ho2 & Hl2).
  assert (Hne : la <> lb).
  { intros <-. rewrite Hl1, lookup_insert_eq in Hlb. discriminate. }
  exists la, lb, (set_callbacks fw (Some la) ea),
    (set_callbacks fw (Some lb) eb).
  split; [exact Hne|].
  rewrite Ho2, Ho1, Hl2, Hl1.
  rewrite lookup_insert_eq, lookup_insert_ne, lookup_insert_eq by done.
  rewrite lookup_insert_eq, lookup_insert_ne, lookup_insert_eq by done.
  repeat split.
  intros l cbs Hl.
  assert (la <> l) by congruence.
  assert (lb <> l).
  { intros <-. rewrite Hl1, lookup_insert_ne in Hlb by done. congruence. }
  by rewrite !lookup_insert_ne.
Qed.

(** Opening the call of [build_model] inside a run of [fit]; the call
    itself is kept as [Hcall]. *)
Ltac open_build H :=
  match type of H with
  | context [build_model ?f ?self ?s ?W] =>
      let Hb := fresh "Hb" in
      let Hcall := fresh "Hcall" in
      let Hself := fresh "Hself" in
      let Hobjs := fresh "Hobjs" in
      let Hlists := fresh "Hlists" in
      let Hdisk := fresh "Hdisk" in
      let Htrace := fresh "Htrace" in
      destruct (build_model f self s W) as [[?built|?ex] ?w2] eqn:Hb;
      pose proof Hb as Hcall;
      [ apply build_model_ok_inv in Hb
          as (? & ?l & ?cbs & ?layers & ?out & ?init & Hself & ?Hnet & ?Hdense &
              ?Hmodel & -> & Hobjs & ?Hlist & Hdisk & Htrace);
        simp_hyp Hself; rewrite lookup_insert_eq in Hself;
        injection Hself as <-;
        simp_hyp Hobjs; simp_hyp Hdisk; simp_hyp Htrace;
        rewrite ?Hobjs, ?Hdisk, ?Htrace in H
      | apply build_model_raise_state in Hb as (Hobjs & Hlists & Hdisk);
        simp_hyp Hobjs; simp_hyp Hlists; simp_hyp Hdisk ]
  end.

Ltac follow_fit H :=
  unfold fit, save_trained_model in H; unfold_monad;
  repeat first [ open_build H | step_in H ];
  try (injection H as <- <-); simp_goal.

(** What [fit] does to a list that exists: what its call of [build_model]
    does. *)
Lemma fit_lists self X y ic w r w' l cbs :
  fit fw self X y ic w = (r, w') ->
  lists w !! l = Some cbs ->
  lists w' !! l = Some cbs \/
  (existsb is_ReduceLROnPlateau cbs = false /\
   lists w' !! l = Some (cbs ++ [default_reduce_lr])).
Proof.
  intros H Hl. follow_fit H.
  all: try (left; exact Hl).
  all: rewrite ?Hlists.
  all: match goal with
       | Hcall : build_model _ _ _ _ = _ |- _ =>
           destruct (build_model_lists _ _ _ _ _ l cbs Hcall Hl)
             as [? | (? & ? & _)]; auto
       end.
Qed.

Lemma run_lists o w l cbs :
  lists w !! l = Some cbs ->
  lists (run o w) !! l = Some cbs \/
  (existsb is_ReduceLROnPlateau cbs = false /\
   lists (run o w) !! l = Some (cbs ++ [default_reduce_lr])).
Proof.
  intros Hl. destruct o as [kw | self s | self X y ic]; cbn [run].
  - left. exact Hl.
  - destruct (build_model fw self s w) as [r w'] eqn:H. cbn [snd].
    destruct (build_model_lists _ _ _ _ _ _ _ H Hl) as [? | (? & ? & _)]; auto.
  - destruct (fit fw self X y ic w) as [r w'] eqn:H. cbn [snd].
    exact (fit_lists _ _ _ _ _ _ _ _ _ H Hl).
Qed.

(** X5: whatever operations run, on whatever estimators, a list of
    callbacks that exists is never replaced, reordered or shortened: it
    ends up as it was, or with one default [ReduceLROnPlateau] appended,
    and that only when it held none. *)
Theorem run_all_extends_a_list_at_most_once ops w l cbs :
  lists w !! l = Some cbs ->
  exists extra,
    lists (run_all ops w) !! l = Some (cbs ++ extra) /\
    (extra = [] \/
     (extra = [default_reduce_lr] /\
      existsb is_ReduceLROnPlateau cbs = false)).
Proof.
  revert w cbs. induction ops as [|o ops IH]; intros w cbs Hl; cbn.
  - exists []. rewrite app_nil_r. auto.
  - destruct (run_lists o w l cbs Hl) as [Hsame | [Hno Happ]].
    + exact (IH _ _ Hsame).
    + destruct (IH _ _ Happ) as (extra & Hx & [-> | [_ Hhas]]).
      * exists [default_reduce_lr]. rewrite app_nil_r in Hx. auto.
      * rewrite existsb_app in Hhas. cbn in Hhas.
        rewrite orb_true_r in Hhas. discriminate.
Qed.

(** The call of [build_model] inside a [fit] that returns. *)
Lemma fit_ok_build self X y ic w r w' :
  fit fw self X y ic w = (Ok r, w') ->
  exists s w1 built w2,
    build_model fw self s w1 = (Ok built, w2) /\
    callbacks_of self w1 = callbacks_of self w /\
    callbacks_of self w' = callbacks_of self w2.
Proof.
  intros H. follow_fit H.
  all: match goal with
       | Hcall : build_model _ _ ?s ?W = (Ok ?m, ?w2) |- _ =>
           exists s, W, m, w2
       end.
  all: split; [assumption|].
  all: unfold callbacks_of; use_eqs; rewrite ?lookup_insert_eq; simp_goal;
    split; reflexivity.
Qed.

(** The callbacks after a [fit] that returns. *)
Lemma fit_ok_callbacks_of self X y ic w r w' :
  fit fw self X y ic w = (Ok r, w') ->
  callbacks_of self w' =
    (if existsb is_ReduceLROnPlateau (callbacks_of self w)
     then callbacks_of self w
     else callbacks_of self w ++ [default_reduce_lr]) /\
  existsb is_ReduceLROnPlateau (callbacks_of self w') = true.
Proof.
  intros H.
  destruct (fit_ok_build _ _ _ _ _ _ _ H)
    as (s & w1 & built & w2 & Hb & Hpre & Hpost).
  pose proof (build_model_ok_has_ReduceLROnPlateau _ _ _ _ _ _ Hb) as Hhas.
  split; [|by rewrite Hpost].
  rewrite Hpost, <- Hpre.
  destruct (build_model_callbacks_step _ _ _ _ _ _ Hb) as [Heq | [Hno Heq]].
  - rewrite Heq in Hhas. by rewrite Hhas.
  - by rewrite Hno.
Qed.

(** The call of [model.fit] inside a [fit] that returns. *)
Lemma fit_ok_model_fit self X y ic w r w' :
  fit fw self X y ic w = (Ok r, w') ->
  exists e X' built res,
    objs w !! self = Some e /\
    check_and_clean_data fw X y ic = Ok X' /\
    model_fit fw built X' y (Some (batch_size_used e X')) (nb_epochs e)
      (verbose e) (Some (callbacks_of self w')) = Ok res.
Proof.
  intros H.
  apply fit_ok_inv in H
    as (e & X' & w1' & w2' & built' & ws & h & l & cbs & _ & He & HX & _ & _ &
        Hl & Hfit & Ho & Hls & _).
  exists e, X', built', (ws, h).
  split; [exact He|]. split; [exact HX|].
  cbn zeta in Hfit.
  replace (callbacks_of self w') with cbs; [exact Hfit|].
  unfold callbacks_of. rewrite Ho, lookup_insert_eq. simp_goal.
  by rewrite Hls, Hl.
Qed.

(** X6: when [fit] returns, the callbacks it has trained with are those of
    [self.callbacks] after the call: the callbacks from before, followed
    by the default [ReduceLROnPlateau] when there was none among them.
    They hold a [ReduceLROnPlateau], so that fitting again adds nothing. *)
Theorem fit_trains_with_the_callbacks_and_the_default self X y ic w r w' :
  fit fw self X y ic w = (Ok r, w') ->
  callbacks_of self w' =
    (if existsb is_ReduceLROnPlateau (callbacks_of self w)
     then callbacks_of self w
     else callbacks_of self w ++ [default_reduce_lr]) /\
  existsb is_ReduceLROnPlateau (callbacks_of self w') = true /\
  exists e X' built res,
    objs w !! self = Some e /\
    check_and_clean_data fw X y ic = Ok X' /\
    model_fit fw built X' y (Some (batch_size_used e X')) (nb_epochs e)
      (verbose e) (Some (callbacks_of self w')) = Ok res.
Proof.
  intros H.
  destruct (fit_ok_callbacks_of _ _ _ _ _ _ _ H) as [Hc Hhas].
  exact (conj Hc (conj Hhas (fit_ok_model_fit _ _ _ _ _ _ _ H))).
Qed.

(** What [fit] does to the estimators, whether it returns or raises. *)
Lemma fit_objs self X y ic w r w' :
  fit fw self X y ic w = (r, w') ->
  (objs w !! self = None /\ objs w' = objs w) \/
  (exists e e', objs w !! self = Some e /\ objs w' = <[self := e']> (objs w) /\
                hyperparameters e' = hyperparameters e /\
                (forall ex, r = Raise ex -> is_fitted e' = is_fitted e)).
Proof.
  intros H. destruct (objs w !! self) as [e|] eqn:He.
  - right. exists e.
    unfold fit, save_trained_model in H; unfold_monad. rewrite ?He in H.
    repeat first [ open_build H | step_in H ];
      try (injection H as <- <-); simp_goal.
    all: repeat match goal with
                | E : objs ?v = _ |- context [objs ?v] => rewrite E
                end.
    all: eexists; split; [reflexivity|]; split;
      [ first [ rewrite ?insert_insert_eq; reflexivity
              | symmetry; apply insert_id; exact He ] | ].
    all: split; [reflexivity | intros; first [discriminate | reflexivity]].
  - left. split; [done|]. exact (proj1 (fit_no_self _ _ _ _ _ _ _ _ He H)).
Qed.

(** X7: a call of [fit] that raises leaves [is_fitted] of every estimator
    as it was and touches no estimator but [self].  It is not undone,
    though: only when the input was rejected is the state as before; once
    the input is accepted, [self.input_shape] is already that of the new
    data. *)
Theorem fit_failure_keeps_is_fitted_but_not_input_shape
    self X y ic w ex w' :
  fit fw self X y ic w = (Raise ex, w') ->
  (forall a e, objs w !! a = Some e ->
     exists e', objs w' !! a = Some e' /\ is_fitted e' = is_fitted e /\
                (a <> self -> e' = e)) /\
  (forall ex0, check_and_clean_data fw X y ic = Raise ex0 ->
     ex = ex0 /\ objs w' = objs w /\ lists w' = lists w /\ disk w' = disk w) /\
  (forall X' e, check_and_clean_data fw X y ic = Ok X' ->
     objs w !! self = Some e ->
     exists e', objs w' !! self = Some e' /\
                input_shape e' = Some (tail (ndarray_shape fw X'))).
Proof.
  intros H. split; [|split].
  - intros a e Ha.
    destruct (fit_objs _ _ _ _ _ _ _ H)
      as [[_ ->] | (e1 & e' & He1 & -> & _ & Hf)]; [eauto|].
    destruct (decide (self = a)) as [->|Hne].
    + rewrite lookup_insert_eq. assert (e1 = e) as -> by congruence.
      exists e'. split; [done|]. split; [eauto | congruence].
    + rewrite lookup_insert_ne by done. eauto.
  - intros ex0 HX. unfold fit in H. unfold_monad. rewrite HX in H.
    by injection H as <- <-.
  - intros X' e HX He.
    destruct (fit_raise_inv _ _ _ _ _ _ _ _ _ H He)
      as (e' & -> & _ & _ & _ & Hs & _).
    exists e'. rewrite lookup_insert_eq. auto.
Qed.

(** X8: on an estimator without a batch size, a cleaned array that has no
    axis at all makes [fit] raise IndexError where it reads the number of
    instances -- after [self.input_shape] was set, to the empty shape, and
    before anything of the network is built. *)
Theorem fit_raises_IndexError_on_array_without_axes self X y ic w e X' :
  objs w !! self = Some e ->
  batch_size e = None ->
  check_and_clean_data fw X y ic = Ok X' ->
  ndarray_shape fw X' = [] ->
  fit fw self X y ic w =
    (Raise (Exn "IndexError" "tuple index out of range"),
     World fw (<[self := set_input_shape fw (Some []) e]> (objs w))
       (lists w) (disk w)
       (trace w ++ [(call_check_and_clean_data, Returned)])).
Proof.
  intros He Hb HX Hs. unfold fit. unfold_monad.
  rewrite HX. simp_goal. rewrite He. simp_goal.
  rewrite lookup_insert_eq. simp_goal. rewrite Hb, Hs. reflexivity.
Qed.


Lemma set_callbacks_hyperparameters c e :
  hyperparameters (set_callbacks fw c e) = hyperparameters e.
Proof. reflexivity. Qed.

Lemma run_hyperparameters o w a e :
  objs w !! a = Some e ->
  exists e', objs (run o w) !! a = Some e' /\
             hyperparameters e' = hyperparameters e.
Proof.
  intros Ha. destruct o as [kw | self s | self X y ic]; cbn [run].
  - destruct (init_objs fw kw w) as (self & e0 & Hnone & _ & ->).
    cbn [snd objs]. exists e. by rewrite lookup_insert_ne by congruence.
  - destruct (build_model fw self s w) as [r w'] eqn:H. cbn [snd].
    destruct (build_model_objs _ _ _ _ _ _ H)
      as [[_ ->] | (e1 & c & He1 & ->)]; [eauto|].
    destruct (decide (self = a)) as [->|Hne].
    + rewrite lookup_insert_eq. assert (e1 = e) as -> by congruence.
      eexists; split; [reflexivity|]. apply set_callbacks_hyperparameters.
    + rewrite lookup_insert_ne by done. eauto.
  - destruct (fit fw self X y ic w) as [r w'] eqn:H. cbn [snd].
    destruct (fit_objs _ _ _ _ _ _ _ H)
      as [[_ ->] | (e1 & e' & He1 & -> & Hh & _)]; [eauto|].
    destruct (decide (self = a)) as [->|Hne].
    + rewrite lookup_insert_eq. assert (e1 = e) as -> by congruence. eauto.
    + rewrite lookup_insert_ne by done. eauto.
Qed.

(** X10: no operation assigns a constructor argument again, except
    [batch_size] and [callbacks]: whatever operations run, an estimator
    keeps its topology arguments, [nb_epochs], [random_seed], [verbose],
    [model_name] and [model_save_directory]. *)
Theorem run_all_keeps_hyperparameters ops w a e :
  objs w !! a = Some e ->
  exists e', objs (run_all ops w) !! a = Some e' /\
             hyperparameters e' = hyperparameters e.
Proof.
  revert w e. induction ops as [|o ops IH]; intros w e Ha; cbn.
  - eauto.
  - destruct (run_hyperparameters o w a e Ha) as (e1 & Ha1 & Hh1).
    destruct (IH _ _ Ha1) as (e2 & Ha2 & Hh2).
    exists e2. split; [exact Ha2 | congruence].
Qed.

(** X12: an estimator constructed with the arguments left at their
    defaults, once [fit] returns, has been trained with batch size 64, for
    1500 epochs, not verbose, with the default [ReduceLROnPlateau] as its
    only callback; [model.summary] was not called and no file was
    written. *)
Theorem fit_of_default_estimator self X y ic w w0 r w' :
  InceptionTimeRegressor_init fw default_kwargs w = (Ok self, w0) ->
  fit fw self X y ic w0 = (Ok r, w') ->
  callbacks_of self w' = [default_reduce_lr] /\
  disk w' = disk w /\
  trace w' = trace w ++ map returned (fit_calls false) /\
  exists X' built res,
    check_and_clean_data fw X y ic = Ok X' /\
    model_fit fw built X' y (Some 64) 1500 false (Some [default_reduce_lr]) =
      Ok res.
Proof.
  intros Hinit H. unfold InceptionTimeRegressor_init, with_objs in Hinit.
  injection Hinit as <- <-.
  destruct (fit_ok_callbacks_of _ _ _ _ _ _ _ H) as [Hc _].
  destruct (fit_ok_model_fit _ _ _ _ _ _ _ H)
    as (e & X' & built & res & He & HX & Hfit).
  simp_hyp He. rewrite lookup_insert_eq in He. injection He as <-.
  unfold callbacks_of at 2 3 4 in Hc. simp_hyp Hc.
  rewrite lookup_insert_eq in Hc. simp_hyp Hc. cbn [existsb app] in Hc.
  rewrite Hc in Hfit. unfold batch_size_used in Hfit. simp_hyp Hfit.
  cbn [kw_nb_epochs kw_verbose kw_batch_size default_kwargs] in Hfit.
  apply fit_ok_inv in H
    as (e & ? & ? & ? & ? & ? & ? & ? & ? & _ & He & _ & _ & _ & _ & _ & _ & _ &
        _ & Hd & Ht).
  simp_hyp He. rewrite lookup_insert_eq in He. injection He as <-.
  unfold files_saved in Hd. simp_hyp Hd. simp_hyp Ht.
  cbn [kw_model_save_directory kw_verbose default_kwargs] in Hd, Ht.
  rewrite app_nil_r in Hd.
  split; [exact Hc|]. split; [exact Hd|]. split; [exact Ht|].
  eauto.
Qed.

End FurtherProperties.

(** ** The theorems at work on the sample estimator *)

Lemma build_model_appends_default_ReduceLROnPlateau_witness :
  exists m w',
    build_model sample_framework sample_self [5; 1] sample_world = (Ok m, w') /\
    callbacks_of sample_self w' =
      [OtherCallback "EarlyStopping";
       ReduceLROnPlateau "loss" 0.5%Q 50 0.0001%Q].
Proof.
  eassert (H : build_model sample_framework sample_self [5; 1] sample_world =
               (Ok _, _)) by (vm_compute; reflexivity).
  do 2 eexists. split; [exact H|].
  apply (build_model_appends_default_ReduceLROnPlateau _ _ _ _ _ _ H).
  reflexivity.
Defined.

Lemma build_model_compiles_mse_adam_witness :
  exists m w' args,
    build_model sample_framework sample_self [5; 1] sample_world = (Ok m, w') /\
    model_compiled m = Some args /\
    loss args = "mean_squared_error" /\
    adam_family (compile_optimizer args) = true.
Proof.
  eassert (H : build_model sample_framework sample_self [5; 1] sample_world =
               (Ok _, _)) by (vm_compute; reflexivity).
  destruct (build_model_compiles_mse_adam _ _ _ _ _ _ H)
    as (args & Hc & Hl & _ & Ha & _).
  do 3 eexists. split; [exact H|]. split; [exact Hc|]. split; assumption.
Defined.

Lemma fit_returns_self_with_trained_model_witness :
  exists r w' e' m,
    fit sample_framework sample_self sample_X sample_y true sample_world =
      (Ok r, w') /\
    r = sample_self /\ objs w' !! sample_self = Some e' /\
    model e' = Some m /\ is_fitted e' = true.
Proof.
  eassert (H : fit sample_framework sample_self sample_X sample_y true
                 sample_world = (Ok _, _)) by (vm_compute; reflexivity).
  destruct (fit_returns_self_with_trained_model _ _ _ _ _ _ _ _ H)
    as (Hr & e' & m & He' & Hm & Hf & _).
  do 2 eexists. exists e', m. split; [exact H|]. auto.
Defined.

Lemma fit_rebuilds_model_on_every_call_witness :
  exists r w' e' m,
    fit sample_framework sample_self [30; 5; 1] [30] true
      (run (op_fit sample_framework sample_self sample_X sample_y true)
         sample_world) = (r, w') /\
    objs w' !! sample_self = Some e' /\
    model e' = Some m /\
    model_compiled m = Some build_model_compile_args.
Proof.
  eassert (H : fit sample_framework sample_self [30; 5; 1] [30] true
                 (run (op_fit sample_framework sample_self sample_X sample_y
                         true) sample_world) = (_, _))
    by (vm_compute; reflexivity).
  eassert (He : objs (run (op_fit sample_framework sample_self sample_X
                             sample_y true) sample_world) !! sample_self =
                Some _) by (vm_compute; reflexivity).
  destruct (fit_rebuilds_model_on_every_call sample_framework sample_self
              [30; 5; 1] [30] true _ _ _ _ [30; 5; 1] He eq_refl
              ltac:(discriminate) H) as [(rb & w2 & Hb & Hrest) _].
  vm_compute in Hb. injection Hb as <- <-.
  destruct Hrest as (e' & ws & t & He' & Hm & _).
  do 2 eexists. exists e'. eexists.
  split; [exact H|]. split; [exact He'|]. split; [exact Hm | reflexivity].
Defined.


Lemma fit_checks_once_then_delegates_witness :
  exists w',
    fit sample_framework sample_self sample_X short_y true sample_world =
      (Raise (Exn "ValueError" "inconsistent numbers of samples"), w') /\
    trace w' =
      [(call_check_and_clean_data,
        Raised (Exn "ValueError" "inconsistent numbers of samples"))].
Proof.
  eassert (H : fit sample_framework sample_self sample_X short_y true
                 sample_world = (_, _)) by (vm_compute; reflexivity).
  eassert (He : objs sample_world !! sample_self = Some _)
    by (vm_compute; reflexivity).
  pose proof H as Hrun.
  eapply (fit_checks_once_then_delegates sample_framework sample_self
            sample_X short_y true sample_world) in Hrun as [Hfirst _];
    [ | exact He
      | intros l [= <-]; vm_compute; eauto
      | intros X' HX; vm_compute in HX; discriminate HX ].
  destruct (Hfirst (Exn "ValueError" "inconsistent numbers of samples")
              eq_refl eq_refl) as [Hr Ht].
  eexists. split; [exact H | exact Ht].
Defined.

Lemma fit_sets_input_shape_and_only_fit_changes_it_witness :
  exists e'',
    objs (run_all [op_build_model sample_framework sample_self [5; 1];
                   op_init sample_framework default_kwargs]
            (run (op_fit sample_framework sample_self sample_X sample_y true)
               sample_world)) !! sample_self = Some e'' /\
    input_shape e'' = Some [5; 1].
Proof.
  eassert (H : fit sample_framework sample_self sample_X sample_y true
                 sample_world = (_, _)) by (vm_compute; reflexivity).
  eassert (He : objs sample_world !! sample_self = Some _)
    by (vm_compute; reflexivity).
  destruct (fit_sets_input_shape_and_only_fit_changes_it sample_framework
              sample_self sample_X sample_y true sample_world _ _ _ sample_X
              He eq_refl H) as (e' & _ & _ & Hafter).
  apply (Hafter [op_build_model sample_framework sample_self [5; 1];
                 op_init sample_framework default_kwargs] eq_refl).
Defined.

Lemma fit_sets_default_batch_size_witness :
  exists e',
    objs (run (op_fit sample_framework sample_self sample_X sample_y true)
            sample_world) !! sample_self = Some e' /\
    batch_size e' = Some 2.
Proof.
  eassert (H : fit sample_framework sample_self sample_X sample_y true
                 sample_world = (_, _)) by (vm_compute; reflexivity).
  eassert (He : objs sample_world !! sample_self = Some _)
    by (vm_compute; reflexivity).
  destruct (fit_sets_default_batch_size sample_framework
              sample_self sample_X sample_y true sample_world _ _ _ sample_X
              He eq_refl H) as (e' & He' & Hb & _).
  exists e'. split; [exact He'|]. cbn in Hb.
  destruct (Hb 20 [5; 1] eq_refl) as [Hv _]. exact Hv.
Defined.

Lemma reachable_fitted_invariant_witness :
  fitted_invariant
    (run (op_fit sample_framework sample_self sample_X sample_y true)
       sample_world).
Proof.
  apply reachable_fitted_invariant.
  apply reachable_run, reachable_run, reachable_start. reflexivity.
Defined.

(** C2 as stated fails: with the input checks on and labels for nineteen of
    twenty series, [fit] raises the error of the validation step, before
    any call into the framework. *)
Lemma fit_validation_error_counterexample :
  ~ raises_only_framework_errors sample_framework.
Proof.
  intros Hclaim.
  eassert (H : fit sample_framework sample_self sample_X short_y true
                 sample_world = (Raise _, _)) by (vm_compute; reflexivity).
  destruct (Hclaim _ _ _ _ _ _ _ H) as (s & Hlast & Hfw).
  vm_compute in Hlast. injection Hlast as <-. discriminate Hfw.
Qed.

(** ** The further theorems at work *)

Lemma build_model_changes_only_callbacks_witness :
  exists e',
    objs (snd (build_model sample_framework sample_self [5; 1] sample_world))
      !! sample_self = Some e' /\
    model e' = None /\ is_fitted e' = false /\
    disk (snd (build_model sample_framework sample_self [5; 1] sample_world))
      = [].
Proof.
  destruct (build_model sample_framework sample_self [5; 1] sample_world)
    as [r w'] eqn:H.
  eassert (He : objs sample_world !! sample_self = Some _)
    by (vm_compute; reflexivity).
  destruct (build_model_changes_only_callbacks _ _ _ _ _ _ H)
    as (Hd & _ & Ho & _).
  destruct (Ho _ _ He) as (e' & He' & Heq & _).
  exists e'. cbn [snd]. split; [exact He'|].
  split; [exact (f_equal model Heq)|].
  split; [exact (f_equal is_fitted Heq) | exact Hd].
Defined.

Lemma build_model_failure_leaves_callbacks_untouched_witness :
  exists w',
    build_model strict_framework sample_self [] strict_world =
      (Raise (Exn "ValueError" "input has no time axis"), w') /\
    callbacks_of sample_self w' = [OtherCallback "EarlyStopping"] /\
    objs w' = objs strict_world.
Proof.
  eassert (H : build_model strict_framework sample_self [] strict_world =
               (Raise _, _)) by (vm_compute; reflexivity).
  eexists. split; [exact H|].
  destruct (build_model_failure_leaves_callbacks_untouched _ _ _ _ _ _ H)
    as (Ho & _ & _ & Hc & _).
  split; [|exact Ho]. rewrite Hc. reflexivity.
Defined.

Lemma build_model_shared_callbacks_list_witness :
  exists m w',
    build_model strict_framework sample_self [5; 1] strict_world = (Ok m, w') /\
    callbacks_of other_self w' = callbacks_of sample_self w' /\
    forall r w'',
      build_model strict_framework other_self [5; 1] w' = (r, w'') ->
      callbacks_of other_self w'' = callbacks_of sample_self w'.
Proof.
  eassert (H : build_model strict_framework sample_self [5; 1] strict_world =
               (Ok _, _)) by (vm_compute; reflexivity).
  eassert (Ha : objs strict_world !! sample_self = Some _)
    by (vm_compute; reflexivity).
  eassert (Hb : objs strict_world !! other_self = Some _)
    by (vm_compute; reflexivity).
  destruct (build_model_shared_callbacks_list strict_framework sample_self
              other_self [5; 1] [5; 1] strict_world _ _ caller_list _ _
              ltac:(discriminate) Ha Hb eq_refl eq_refl H)
    as (Heq & _ & Hnext).
  do 2 eexists. split; [exact H|]. split; [exact Heq|].
  intros r w'' H2. exact (proj1 (Hnext _ _ H2)).
Defined.

Lemma build_model_gives_each_estimator_its_own_list_witness :
  exists la lb ea' eb',
    la <> lb /\
    objs (run_all [op_build_model sample_framework sample_self [5; 1];
                   op_build_model sample_framework other_self [5; 1]]
            default_world) !! sample_self = Some ea' /\
    callbacks ea' = Some la /\
    objs (run_all [op_build_model sample_framework sample_self [5; 1];
                   op_build_model sample_framework other_self [5; 1]]
            default_world) !! other_self = Some eb' /\
    callbacks eb' = Some lb.
Proof.
  eassert (H1 : build_model sample_framework sample_self [5; 1] default_world =
                (Ok _, _)) by (vm_compute; reflexivity).
  eassert (H2 : build_model sample_framework other_self [5; 1]
                  (snd (build_model sample_framework sample_self [5; 1]
                          default_world)) = (Ok _, _))
    by (vm_compute; reflexivity).
  eassert (Ha : objs default_world !! sample_self = Some _)
    by (vm_compute; reflexivity).
  eassert (Hb : objs default_world !! other_self = Some _)
    by (vm_compute; reflexivity).
  destruct (build_model_gives_each_estimator_its_own_list sample_framework
              sample_self other_self [5; 1] [5; 1] default_world _ _ _ _ _ _
              ltac:(discriminate) Ha Hb eq_refl eq_refl H1 H2)
    as (la & lb & ea' & eb' & Hne & Ha' & Hla & Hb' & Hlb & _).
  exists la, lb, ea', eb'.
  exact (conj Hne (conj Ha' (conj Hla (conj Hb' Hlb)))).
Defined.

Lemma run_all_extends_a_list_at_most_once_witness :
  exists extra,
    lists (run_all [op_fit strict_framework sample_self sample_X sample_y true;
                    op_build_model strict_framework other_self [5; 1];
                    op_fit strict_framework other_self sample_X sample_y true]
             strict_world) !! caller_list =
      Some ([OtherCallback "EarlyStopping"] ++ extra) /\
    (extra = [] \/
     (extra = [default_reduce_lr] /\
      existsb is_ReduceLROnPlateau [OtherCallback "EarlyStopping"] = false)).
Proof.
  apply run_all_extends_a_list_at_most_once. reflexivity.
Defined.

Lemma fit_failure_keeps_is_fitted_but_not_input_shape_witness :
  exists w' e',
    fit sample_framework sample_self sample_X short_y true sample_world =
      (Raise (Exn "ValueError" "inconsistent numbers of samples"), w') /\
    objs w' = objs sample_world /\
    objs w' !! sample_self = Some e' /\ is_fitted e' = false.
Proof.
  eassert (H : fit sample_framework sample_self sample_X short_y true
                 sample_world = (Raise _, _)) by (vm_compute; reflexivity).
  eassert (He : objs sample_world !! sample_self = Some _)
    by (vm_compute; reflexivity).
  destruct (fit_failure_keeps_is_fitted_but_not_input_shape _ _ _ _ _ _ _ _ H)
    as (Hall & Hrej & _).
  destruct (Hall _ _ He) as (e' & He' & Hf & _).
  destruct (Hrej _ eq_refl) as (_ & Ho & _).
  eexists. exists e'.
  split; [exact H|]. split; [exact Ho|]. split; [exact He'|]. exact Hf.
Defined.

Lemma fit_raises_IndexError_on_array_without_axes_witness :
  exists w' e',
    fit sample_framework sample_self [] sample_y false sample_world =
      (Raise (Exn "IndexError" "tuple index out of range"), w') /\
    objs w' !! sample_self = Some e' /\
    input_shape e' = Some [] /\
    trace w' = [(call_check_and_clean_data, Returned)].
Proof.
  eassert (He : objs sample_world !! sample_self = Some _)
    by (vm_compute; reflexivity).
  do 2 eexists. split.
  - exact (fit_raises_IndexError_on_array_without_axes sample_framework
             sample_self [] sample_y false sample_world _ [] He eq_refl
             eq_refl eq_refl).
  - cbn [objs trace]. rewrite lookup_insert_eq. repeat split.
Defined.


Lemma fit_trains_with_the_callbacks_and_the_default_witness :
  exists r w',
    fit sample_framework sample_self sample_X sample_y true sample_world =
      (Ok r, w') /\
    callbacks_of sample_self w' =
      [OtherCallback "EarlyStopping"; default_reduce_lr].
Proof.
  eassert (H : fit sample_framework sample_self sample_X sample_y true
                 sample_world = (Ok _, _)) by (vm_compute; reflexivity).
  do 2 eexists. split; [exact H|].
  exact (proj1 (fit_trains_with_the_callbacks_and_the_default _ _ _ _ _ _ _ _
                  H)).
Defined.

Lemma run_all_keeps_hyperparameters_witness :
  exists e',
    objs (run_all [op_fit sample_framework sample_self sample_X sample_y true;
                   op_build_model sample_framework sample_self [3; 1];
                   op_fit sample_framework sample_self sample_X short_y true]
            sample_world) !! sample_self = Some e' /\
    hyperparameters e' =
      (NetworkParams 32 true true 32 6 40, 1500, 0, true,
       "inception_regressor", Some "models").
Proof.
  eassert (He : objs sample_world !! sample_self = Some _)
    by (vm_compute; reflexivity).
  exact (run_all_keeps_hyperparameters _ _ _ _ _ He).
Defined.

Lemma default_batch_size_monotone_and_at_most_n_witness :
  default_batch_size 25 <= default_batch_size 170 /\
  default_batch_size 25 <= 25.
Proof.
  apply default_batch_size_monotone_and_at_most_n; lia.
Defined.

Lemma fit_of_default_estimator_witness :
  exists self w0 r w' X' built res,
    InceptionTimeRegressor_init sample_framework default_kwargs caller_world =
      (Ok self, w0) /\
    fit sample_framework self sample_X sample_y true w0 = (Ok r, w') /\
    callbacks_of self w' = [default_reduce_lr] /\
    disk w' = [] /\
    check_and_clean_data sample_framework sample_X sample_y true = Ok X' /\
    model_fit sample_framework built X' sample_y (Some 64) 1500 false
      (Some [default_reduce_lr]) = Ok res.
Proof.
  eassert (Hi : InceptionTimeRegressor_init sample_framework default_kwargs
                  caller_world = (Ok _, _)) by (vm_compute; reflexivity).
  eassert (H : fit sample_framework sample_self sample_X sample_y true
                 (snd (InceptionTimeRegressor_init sample_framework
                         default_kwargs caller_world)) = (Ok _, _))
    by (vm_compute; reflexivity).
  destruct (fit_of_default_estimator _ _ _ _ _ _ _ _ _ Hi H)
    as (Hc & Hd & _ & X' & built & res & HX & Hfit).
  do 4 eexists. exists X', built, res.
  split; [exact Hi|]. split; [exact H|]. split; [exact Hc|].
  split; [exact Hd|]. split; [exact HX | exact Hfit].
Defined.
